(** * MythraLux-AI: the service-worker cache manager

    A shallow embedding of the three service-worker scripts of the
    repository (the [neurolocal-v2] worker, the minimal [offline-ai-v3]
    worker and the full "Offline AI Assistant" worker, version 3.0.0) and
    the properties of their cache lifecycle, request classification and
    caching strategies.

    Conventions of the embedding:
    - [CacheStorage] (the platform's [caches] object) is a list of named
      caches in creation order, which is the order [caches.keys()] reports
      and [caches.match] searches; one cache is a finite map from request
      URL to stored response;
    - the network is an oracle [Network]: [None] is a rejected [fetch];
    - an [async] function is a computation over the worker state that
      either resolves with a value or rejects with an error;
    - storage-level rejections of [open]/[put]/[match] are outside the
      model: those operations are total. *)

From Stdlib Require Import String Ascii List Bool.
From stdpp Require Import base option list gmap strings.

Import ListNotations.
Local Open Scope string_scope.
Local Open Scope list_scope.

(* ===================================================================== *)
(** ** JavaScript string methods used by the workers                      *)
(* ===================================================================== *)

Module JsString.

(** [s.startsWith(p)]. *)
Definition startsWith (s p : string) : bool := String.prefix p s.

(** [s.includes(needle)]: [needle] occurs at some offset of [s]. *)
Fixpoint includes (s needle : string) : bool :=
  String.prefix needle s ||
  match s with
  | EmptyString => false
  | String _ rest => includes rest needle
  end.

(** [s.endsWith(suffix)]: drop characters from the front of [s] until
    what is left has the length of [suffix]. *)
Fixpoint endsWith (s suffix : string) : bool :=
  if String.eqb s suffix then true
  else match s with
       | EmptyString => false
       | String _ rest => endsWith rest suffix
       end.

End JsString.

(* ===================================================================== *)
(** ** Requests, URLs, responses                                          *)
(* ===================================================================== *)

(** The fields of a parsed [URL] object that the workers read.  A fetch
    event only carries hierarchical URLs (a scheme followed by [//] and a
    host), so [href] is the serialisation
    [protocol // hostname [:port] pathname search hash]; [protocol]
    includes the trailing colon, as in JavaScript. *)
Record URL := mkURL {
  protocol : string;
  hostname : string;
  port     : string;
  pathname : string;
  search   : string;
  hash     : string
}.

Definition host (u : URL) : string :=
  if String.eqb (port u) "" then hostname u else hostname u +:+ ":" +:+ port u.

Definition href (u : URL) : string :=
  protocol u +:+ "//" +:+ host u +:+ pathname u +:+ search u +:+ hash u.

(** [event.request]: the method, the URL and the [accept] header
    ([None] when the header is absent, [headers.get] returning [null]). *)
Record Request := mkRequest {
  method : string;
  target : URL;
  accept : option string
}.

(** [request.url] is the serialised URL, which [new URL(request.url)]
    parses back to [target]. *)
Definition url (r : Request) : string := href (target r).

(** [request.headers.get('accept')?.includes('text/html')]; [undefined]
    (header absent) is falsy. *)
Definition acceptsHtml (r : Request) : bool :=
  match accept r with
  | Some a => JsString.includes a "text/html"
  | None => false
  end.

(** A response: its status and its body.  [ok] is the platform's
    [Response.ok], a status in the range 200-299. *)
Record Response := mkResponse {
  status : nat;
  body   : string
}.

Definition ok (r : Response) : bool :=
  (200 <=? status r)%nat && (status r <=? 299)%nat.

(** The strategy buckets of the request classifier. *)
Inductive StrategyBucket :=
| BYPASS
| CACHE_FIRST
| NETWORK_FIRST
| STALE_WHILE_REVALIDATE.

(* ===================================================================== *)
(** ** Worker 1: [neurolocal-v2]                                          *)
(* ===================================================================== *)

Module Neurolocal.

Definition CACHE_NAME : string := "neurolocal-v2".

(** The guard of the fetch listener: the listener returns without
    calling [respondWith] for model weights and WASM chunks. *)
Definition bypasses (r : Request) : bool :=
  let u := target r in
  JsString.includes (hostname u) "huggingface" ||
  JsString.includes (hostname u) "mlc-ai" ||
  JsString.endsWith (pathname u) ".bin" ||
  JsString.endsWith (pathname u) ".wasm".

(** Everything else is answered cache first; the method is not read. *)
Definition classify (r : Request) : StrategyBucket :=
  if bypasses r then BYPASS else CACHE_FIRST.

End Neurolocal.

(* ===================================================================== *)
(** ** Worker 2: minimal [offline-ai-v3]                                  *)
(* ===================================================================== *)

Module Minimal.

Definition CACHE : string := "offline-ai-v3".

Definition classify (r : Request) : StrategyBucket :=
  if negb (String.eqb (method r) "GET") then BYPASS else CACHE_FIRST.

End Minimal.


(* ===================================================================== *)
(** ** Worker 3: the Offline AI Assistant service worker (3.0.0)          *)
(* ===================================================================== *)

Module OfflineAI.

Definition CACHE_NAME : string := "offline-ai-v3".
Definition CORE_CACHE : string := "offline-ai-core-v1".

(** Core assets that are cached at install time. *)
Definition CORE_ASSETS : list string :=
  [ "/";
    "/index.html";
    "/manifest.json";
    "/app.js";
    "https://cdn.tailwindcss.com";
    "https://fonts.googleapis.com/css2?family=Inter:wght@400;500;600;700&display=swap";
    "https://fonts.gstatic.com/s/inter/v13/UcCO3FwrK3iLTeHuS_fvQtMwCp50KnMw2boKoduKmMEVuLyfAZJhiI2B.woff2";
    "https://cdn.jsdelivr.net/npm/@mlc-ai/web-llm@0.2.38/+esm" ].

Record ModelCacheConfig := mkModelCacheConfig {
  name    : string;
  version : nat
}.

Definition MODEL_CACHE_CONFIG : ModelCacheConfig :=
  {| name := "mlc-model-cache"; version := 1 |}.

(** The cache version registry: the names the activate listener keeps. *)
Definition registry : list string := [CACHE_NAME; CORE_CACHE].

Definition kept (key : string) : bool :=
  String.eqb key CACHE_NAME || String.eqb key CORE_CACHE.

(* --------------------------------------------------------------------- *)
(** *** Errors, console, cache storage, worker state                      *)
(* --------------------------------------------------------------------- *)

(** What a rejected promise carries. *)
Inductive JsError :=
| NetworkError (requested : string)    (* [fetch] rejected *)
| BadStatus (requested : string)       (* [addAll] met a response that is not ok *)
| ReferenceError (identifier : string) (* an identifier that is not bound *).

Inductive ConsoleEntry :=
| Log (message : string)
| Error (message : string) (error : JsError).

(** One cache: request URL to stored response. *)
Abbreviation Cache := (gmap string Response).

(** The platform's [caches]: named caches in creation order. *)
Definition CacheStorage := list (string * Cache).

(** The network seen by [fetch]: [None] is a rejection. *)
Definition Network := string -> option Response.

Record Worker := mkWorker {
  caches         : CacheStorage;
  console        : list ConsoleEntry;
  skippedWaiting : bool;
  claimedClients : bool
}.

Definition withCaches (cs : CacheStorage) (w : Worker) : Worker :=
  {| caches := cs; console := console w;
     skippedWaiting := skippedWaiting w; claimedClients := claimedClients w |}.

(** [caches.keys()]. *)
Definition keys (cs : CacheStorage) : list string := map fst cs.

(** The cache a handle for [cacheName] reads. *)
Fixpoint lookupCache (cs : CacheStorage) (cacheName : string) : option Cache :=
  match cs with
  | [] => None
  | (n, c) :: rest => if String.eqb n cacheName then Some c else lookupCache rest cacheName
  end.

(** [caches.open(cacheName)]: creates the cache, after the existing ones,
    when it is absent. *)
Definition openCache (cs : CacheStorage) (cacheName : string) : CacheStorage :=
  match lookupCache cs cacheName with
  | Some _ => cs
  | None => cs ++ [(cacheName, ∅)]
  end.

(** [caches.delete(cacheName)]. *)
Definition deleteCache (cs : CacheStorage) (cacheName : string) : CacheStorage :=
  List.filter (fun entry => negb (String.eqb (fst entry) cacheName)) cs.

(** [cache.put(key, response)] through a handle for [cacheName]:
    overwrites the entry of [key]. *)
Definition putIn (cs : CacheStorage) (cacheName key : string) (r : Response)
  : CacheStorage :=
  map (fun entry =>
         if String.eqb (fst entry) cacheName
         then (fst entry, <[key := r]> (snd entry))
         else entry) cs.

(** [cache.match(key)] through a handle for [cacheName]. *)
Definition matchIn (cs : CacheStorage) (cacheName key : string) : option Response :=
  match lookupCache cs cacheName with
  | Some c => c !! key
  | None => None
  end.

(** [caches.match(key)]: the first cache, in creation order, that holds
    an entry for [key]. *)
Fixpoint matchAny (cs : CacheStorage) (key : string) : option Response :=
  match cs with
  | [] => None
  | (_, c) :: rest =>
      match c !! key with
      | Some r => Some r
      | None => matchAny rest key
      end
  end.

(* --------------------------------------------------------------------- *)
(** *** Async computations                                                *)
(* --------------------------------------------------------------------- *)

Inductive Outcome (A : Type) :=
| Resolved (value : A)
| Rejected (error : JsError).
Arguments Resolved {A} value.
Arguments Rejected {A} error.

(** An [async] body: runs on the worker state, settles one way or the
    other, and leaves the effects it had up to that point. *)
Definition Async (A : Type) : Type := Worker -> Outcome A * Worker.

#[global] Instance async_ret : MRet Async :=
  fun A a w => (Resolved a, w).

#[global] Instance async_bind : MBind Async :=
  fun A B k m w =>
    match m w with
    | (Resolved a, w') => k a w'
    | (Rejected e, w') => (Rejected e, w')
    end.

Definition throw {A} (e : JsError) : Async A := fun w => (Rejected e, w).

(** [try { body } catch (error) { handler }]. *)
Definition tryCatch {A} (body : Async A) (handler : JsError -> Async A) : Async A :=
  fun w =>
    match body w with
    | (Resolved a, w') => (Resolved a, w')
    | (Rejected e, w') => handler e w'
    end.

Definition consoleLog (message : string) : Async unit :=
  fun w => (Resolved tt,
            {| caches := caches w; console := console w ++ [Log message];
               skippedWaiting := skippedWaiting w;
               claimedClients := claimedClients w |}).

Definition consoleError (message : string) (e : JsError) : Async unit :=
  fun w => (Resolved tt,
            {| caches := caches w; console := console w ++ [Error message e];
               skippedWaiting := skippedWaiting w;
               claimedClients := claimedClients w |}).

Definition skipWaiting : Async unit :=
  fun w => (Resolved tt,
            {| caches := caches w; console := console w;
               skippedWaiting := true; claimedClients := claimedClients w |}).

Definition clientsClaim : Async unit :=
  fun w => (Resolved tt,
            {| caches := caches w; console := console w;
               skippedWaiting := skippedWaiting w; claimedClients := true |}).

(** [fetch(key)]. *)
Definition fetch (net : Network) (key : string) : Async Response :=
  fun w => match net key with
           | Some r => (Resolved r, w)
           | None => (Rejected (NetworkError key), w)
           end.

(** [caches.open(cacheName)]; the handle is the cache's name. *)
Definition cachesOpen (cacheName : string) : Async string :=
  fun w => (Resolved cacheName, withCaches (openCache (caches w) cacheName) w).

Definition cachesKeys : Async (list string) :=
  fun w => (Resolved (keys (caches w)), w).

Definition cachesDelete (cacheName : string) : Async unit :=
  fun w => (Resolved tt, withCaches (deleteCache (caches w) cacheName) w).

Definition cachesMatch (key : string) : Async (option Response) :=
  fun w => (Resolved (matchAny (caches w) key), w).

Definition cacheMatch (cache key : string) : Async (option Response) :=
  fun w => (Resolved (matchIn (caches w) cache key), w).

Definition cachePut (cache key : string) (r : Response) : Async unit :=
  fun w => (Resolved tt, withCaches (putIn (caches w) cache key r) w).

(* --------------------------------------------------------------------- *)
(** *** The event handlers                                                *)
(* --------------------------------------------------------------------- *)

Section Handlers.

(** The origin of the worker's scope, for example [https://app.example]:
    a path-absolute string given to [fetch], [addAll], [put] or
    [caches.match] names the URL [origin ++ path]; the other strings the
    worker passes are absolute URLs already. *)
Variable origin : string.

Definition resolve (s : string) : string :=
  if JsString.startsWith s "/" then origin +:+ s else s.

(** [cache.addAll(assets)]: every asset is fetched first; one rejected
    fetch, or one response that is not ok, rejects the call and nothing is
    written.  Otherwise every response is stored under its request. *)
Fixpoint fetchAll (net : Network) (assets : list string)
  : JsError + list (string * Response) :=
  match assets with
  | [] => inr []
  | asset :: rest =>
      match net (resolve asset) with
      | None => inl (NetworkError (resolve asset))
      | Some r =>
          if ok r then
            match fetchAll net rest with
            | inl e => inl e
            | inr fetched => inr ((resolve asset, r) :: fetched)
            end
          else inl (BadStatus (resolve asset))
      end
  end.


Definition putAll (cs : CacheStorage) (cache : string)
  (fetched : list (string * Response)) : CacheStorage :=
  fold_left (fun acc entry => putIn acc cache (fst entry) (snd entry)) fetched cs.

Definition addAll (net : Network) (cache : string) (assets : list string)
  : Async unit :=
  fun w =>
    match fetchAll net assets with
    | inl e => (Rejected e, w)
    | inr fetched => (Resolved tt, withCaches (putAll (caches w) cache fetched) w)
    end.

(** The install listener's body, for a manifest [assets]. *)
Definition installWith (assets : list string) (net : Network) : Async unit :=
  coreCache ← cachesOpen CORE_CACHE;
  addAll net coreCache assets;;
  skipWaiting;;
  consoleLog "[SW] Core assets cached".

Definition install (net : Network) : Async unit := installWith CORE_ASSETS net.

(** The activate listener's body.  The callback of [cacheKeys.map] runs
    once per key, in order. *)
Definition deleteIfOld (key : string) : Async unit :=
  if negb (String.eqb key CACHE_NAME) && negb (String.eqb key CORE_CACHE)
  then consoleLog ("[SW] Deleting old cache: " +:+ key);; cachesDelete key
  else mret tt.

Fixpoint forEach (f : string -> Async unit) (l : list string) : Async unit :=
  match l with
  | [] => mret tt
  | x :: rest => f x;; forEach f rest
  end.

Definition activate : Async unit :=
  cacheKeys ← cachesKeys;
  forEach deleteIfOld cacheKeys;;
  clientsClaim;;
  consoleLog "[SW] Activated and ready".

(** The platform's lifecycle around the two listeners: a worker whose
    install promise rejects becomes redundant and never receives the
    activate event; one whose install promise resolves is activated. *)
Inductive Phase := Activated | Redundant.

Definition deployWith (assets : list string) (net : Network) (w : Worker)
  : Phase * Worker :=
  match installWith assets net w with
  | (Resolved _, installed) => (Activated, snd (activate installed))
  | (Rejected _, failed) => (Redundant, failed)
  end.

(* --------------------------------------------------------------------- *)
(** *** Strategies                                                        *)
(* --------------------------------------------------------------------- *)

(** The background refresh handed to [event.waitUntil]. *)
Definition refresh (net : Network) (cache : string) (request : Request)
  : Async unit :=
  tryCatch
    (response ← fetch net (url request);
     if ok response then cachePut cache (url request) response else mret tt)
    (fun _ => mret tt).

(** [event.waitUntil(task)] inside [cacheFirst] and
    [staleWhileRevalidate].  Both are top-level functions whose only
    parameter is [request]; [event] is a parameter of the listeners'
    arrow functions and no binding of it is in scope here, nor does the
    worker global scope define one.  Evaluating the identifier throws
    before the argument is evaluated, so [task] never starts. *)
Definition eventWaitUntil (task : Async unit) : Async unit :=
  throw (ReferenceError "event").

Definition cacheFirst (net : Network) (request : Request) : Async Response :=
  cache ← cachesOpen CACHE_NAME;
  cachedResponse ← cacheMatch cache (url request);
  match cachedResponse with
  | Some cached =>
      eventWaitUntil (refresh net cache request);;
      mret cached
  | None =>
      response ← fetch net (url request);
      (if ok response then cachePut cache (url request) response else mret tt);;
      mret response
  end.

Definition networkFirst (net : Network) (request : Request) : Async Response :=
  tryCatch
    (response ← fetch net (url request);
     (if ok response
      then cache ← cachesOpen CACHE_NAME; cachePut cache (url request) response
      else mret tt);;
     mret response)
    (fun error =>
       cachedResponse ← cachesMatch (url request);
       match cachedResponse with
       | Some cached => mret cached
       | None => throw error
       end).

Definition staleWhileRevalidate (net : Network) (request : Request)
  : Async Response :=
  cache ← cachesOpen CACHE_NAME;
  cachedResponse ← cacheMatch cache (url request);
  eventWaitUntil (refresh net cache request);;
  match cachedResponse with
  | Some cached => mret cached
  | None => fetch net (url request)
  end.

(* --------------------------------------------------------------------- *)
(** *** The fetch listener                                                *)
(* --------------------------------------------------------------------- *)

Definition isCoreAsset (u : URL) : bool :=
  existsb (fun asset => JsString.includes (href u) asset) CORE_ASSETS.

Definition cdnDomains : list string :=
  [ "cdn.tailwindcss.com";
    "fonts.googleapis.com";
    "fonts.gstatic.com";
    "cdn.jsdelivr.net" ].

Definition isCDNAsset (u : URL) : bool :=
  existsb (fun domain => JsString.includes (hostname u) domain) cdnDomains.

(** The three early returns of the listener: the request is left to the
    network and [respondWith] is not called. *)
Definition skips (request : Request) : bool :=
  negb (String.eqb (method request) "GET") ||
  JsString.startsWith (url request) "chrome-extension://" ||
  JsString.includes (url request) "/dist/models/".

(** The [try] block of the [respondWith] body. *)
Definition strategy (net : Network) (request : Request) : Async Response :=
  if JsString.includes (pathname (target request)) "/api/"
  then networkFirst net request
  else if isCoreAsset (target request) || acceptsHtml request
  then cacheFirst net request
  else if isCDNAsset (target request)
  then staleWhileRevalidate net request
  else networkFirst net request.

(** The [respondWith] body; it resolves with [undefined] ([None]) when
    the offline document itself is not cached. *)
Definition respond (net : Network) (request : Request)
  : Async (option Response) :=
  tryCatch
    (response ← strategy net request; mret (Some response))
    (fun error =>
       consoleError "[SW] Fetch failed:" error;;
       if acceptsHtml request
       then cachesMatch (resolve "/index.html")
       else throw error).

Inductive Interception :=
| PassThrough
| RespondWith (settled : Outcome (option Response)).

Definition onFetch (net : Network) (request : Request) (w : Worker)
  : Interception * Worker :=
  if skips request then (PassThrough, w)
  else let (settled, w') := respond net request w in (RespondWith settled, w').

(** The branch of the listener a request takes, and its bucket. *)
Inductive Branch :=
| SkipNonGet
| SkipExtensionScheme
| SkipModels
| ApiNetworkFirst
| CoreCacheFirst
| CdnStaleWhileRevalidate
| DefaultNetworkFirst.

Definition branch (request : Request) : Branch :=
  if negb (String.eqb (method request) "GET") then SkipNonGet
  else if JsString.startsWith (url request) "chrome-extension://"
  then SkipExtensionScheme
  else if JsString.includes (url request) "/dist/models/" then SkipModels
  else if JsString.includes (pathname (target request)) "/api/"
  then ApiNetworkFirst
  else if isCoreAsset (target request) || acceptsHtml request
  then CoreCacheFirst
  else if isCDNAsset (target request) then CdnStaleWhileRevalidate
  else DefaultNetworkFirst.

Definition bucket (b : Branch) : StrategyBucket :=
  match b with
  | SkipNonGet | SkipExtensionScheme | SkipModels => BYPASS
  | ApiNetworkFirst | DefaultNetworkFirst => NETWORK_FIRST
  | CoreCacheFirst => CACHE_FIRST
  | CdnStaleWhileRevalidate => STALE_WHILE_REVALIDATE
  end.

Definition classify (request : Request) : StrategyBucket := bucket (branch request).

(* --------------------------------------------------------------------- *)
(** *** The message listener and the model cache writer                   *)
(* --------------------------------------------------------------------- *)

Definition cacheModel (net : Network) (modelUrl : string) : Async unit :=
  tryCatch
    (response ← fetch net (resolve modelUrl);
     cache ← cachesOpen (name MODEL_CACHE_CONFIG);
     cachePut cache (resolve modelUrl) response;;
     consoleLog ("[SW] Model cached: " +:+ modelUrl))
    (fun error => consoleError "[SW] Failed to cache model:" error).

(** [event.data] of a message: its [type] and [url] properties. *)
Record Message := mkMessage {
  type     : string;
  modelUrl : string
}.

Definition onMessage (net : Network) (data : option Message) : Async unit :=
  match data with
  | Some m => if String.eqb (type m) "CACHE_MODEL"
              then cacheModel net (modelUrl m)
              else mret tt
  | None => mret tt
  end.

(* --------------------------------------------------------------------- *)
(** *** Background sync and the periodic update check                     *)
(* --------------------------------------------------------------------- *)

Definition syncModels : Async unit :=
  consoleLog "[SW] Background sync triggered".

Definition onSync (tag : string) : Async unit :=
  if String.eqb tag "sync-models" then syncModels else mret tt.

(** [Promise.all(requests.map(request => fetch(request)))]: one rejected
    fetch rejects the whole; a response that is not ok is a response like
    any other.  Of several rejections the model reports the first in list
    order. *)
Fixpoint fetchEach (net : Network) (assets : list string)
  : JsError + list (string * Response) :=
  match assets with
  | [] => inr []
  | asset :: rest =>
      match net (resolve asset) with
      | None => inl (NetworkError (resolve asset))
      | Some r =>
          match fetchEach net rest with
          | inl e => inl e
          | inr fetched => inr ((resolve asset, r) :: fetched)
          end
      end
  end.

Definition promiseAllFetch (net : Network) (assets : list string)
  : Async (list (string * Response)) :=
  fun w =>
    match fetchEach net assets with
    | inl e => (Rejected e, w)
    | inr fetched => (Resolved fetched, w)
    end.

(** [responses.map((response, index) => { if (response.ok) return
    cache.put(requests[index], response); })]. *)
Definition putOk (cs : CacheStorage) (cache : string)
  (fetched : list (string * Response)) : CacheStorage :=
  fold_left
    (fun acc entry =>
       if ok (snd entry) then putIn acc cache (fst entry) (snd entry) else acc)
    fetched cs.

Definition putEachOk (cache : string) (fetched : list (string * Response))
  : Async unit :=
  fun w => (Resolved tt, withCaches (putOk (caches w) cache fetched) w).

(** [checkForUpdates], for a manifest [assets]. *)
Definition checkForUpdatesWith (assets : list string) (net : Network)
  : Async unit :=
  tryCatch
    (cache ← cachesOpen CORE_CACHE;
     responses ← promiseAllFetch net assets;
     putEachOk cache responses;;
     consoleLog "[SW] Periodic update check completed")
    (fun error => consoleError "[SW] Update check failed:" error).

Definition checkForUpdates (net : Network) : Async unit :=
  checkForUpdatesWith CORE_ASSETS net.

Definition onPeriodicSync (net : Network) (tag : string) : Async unit :=
  if String.eqb tag "update-check" then checkForUpdates net else mret tt.

(* --------------------------------------------------------------------- *)
(** *** The worker as an event loop                                       *)
(* --------------------------------------------------------------------- *)

(** The events the worker listens to that reach the cache storage, each
    with the network as it is while the event is handled.  Events are
    handled one after the other. *)
Inductive Event :=
| InstallEvent (net : Network)
| ActivateEvent
| FetchEvent (net : Network) (request : Request)
| MessageEvent (net : Network) (data : option Message)
| SyncEvent (tag : string)
| PeriodicSyncEvent (net : Network) (tag : string).

Definition dispatch (ev : Event) (w : Worker) : Worker :=
  match ev with
  | InstallEvent net => snd (install net w)
  | ActivateEvent => snd (activate w)
  | FetchEvent net request => snd (onFetch net request w)
  | MessageEvent net data => snd (onMessage net data w)
  | SyncEvent tag => snd (onSync tag w)
  | PeriodicSyncEvent net tag => snd (onPeriodicSync net tag w)
  end.

Definition run (events : list Event) (w : Worker) : Worker :=
  fold_left (fun acc ev => dispatch ev acc) events w.

End Handlers.

(** Every response held by a generation of the registry is ok. *)
Definition holdsOnlyOk (cs : CacheStorage) : Prop :=
  forall n key r, In n registry -> matchIn cs n key = Some r -> ok r = true.

End OfflineAI.

(* ===================================================================== *)
(** ** The app-shell workers: lifecycle and fetch listeners               *)
(* ===================================================================== *)

(** What the [neurolocal-v2] worker and the minimal [offline-ai-v3]
    worker share: relative manifest entries, and a [respondWith] body
    that answers from the cache storage and otherwise from the network,
    without storing. *)
Module AppShell.

Import OfflineAI.

Section Shell.

(** The directory of the worker script, with its trailing slash, for
    example [https://app.example/]: an entry [./x] names [base ++ x]. *)
Variable base : string.

Definition resolveRelative (s : string) : string :=
  match s with
  | String "." (String "/" rest) => base +:+ rest
  | _ => s
  end.

(** [cache.addAll(assets)], as in the full worker, for entries relative
    to [base]. *)
Fixpoint fetchShell (net : Network) (assets : list string)
  : JsError + list (string * Response) :=
  match assets with
  | [] => inr []
  | asset :: rest =>
      match net (resolveRelative asset) with
      | None => inl (NetworkError (resolveRelative asset))
      | Some r =>
          if ok r then
            match fetchShell net rest with
            | inl e => inl e
            | inr fetched => inr ((resolveRelative asset, r) :: fetched)
            end
          else inl (BadStatus (resolveRelative asset))
      end
  end.

Definition addShell (net : Network) (cache : string) (assets : list string)
  : Async unit :=
  fun w =>
    match fetchShell net assets with
    | inl e => (Rejected e, w)
    | inr fetched => (Resolved tt, withCaches (putAll (caches w) cache fetched) w)
    end.

(** [caches.match(request)] with a request object: a request whose
    method is not GET matches nothing. *)
Definition cachesMatchRequest (request : Request) : Async (option Response) :=
  fun w =>
    (Resolved (if String.eqb (method request) "GET"
               then matchAny (caches w) (url request) else None), w).

(** [caches.match(request).then(r => r || fetch(request))]. *)
Definition matchOrFetch (net : Network) (request : Request) : Async Response :=
  cachedResponse ← cachesMatchRequest request;
  match cachedResponse with
  | Some cached => mret cached
  | None => fetch net (url request)
  end.

(* --------------------------------------------------------------------- *)
(** *** The [neurolocal-v2] worker                                        *)
(* --------------------------------------------------------------------- *)

Definition NEUROLOCAL_ASSETS : list string :=
  [ "./";
    "./index.html";
    "./manifest.json";
    "https://cdn.tailwindcss.com";
    "https://cdn.jsdelivr.net/npm/marked/marked.min.js";
    "https://cdn.jsdelivr.net/npm/dompurify/dist/purify.min.js" ].

(** The install listener: [skipWaiting] is called in the listener
    itself, whatever becomes of the promise handed to [waitUntil]. *)
Definition neurolocalInstallWith (assets : list string) (net : Network)
  : Async unit :=
  skipWaiting;;
  cache ← cachesOpen Neurolocal.CACHE_NAME;
  addShell net cache assets.


Definition neurolocalDelete (key : string) : Async unit :=
  if negb (String.eqb key Neurolocal.CACHE_NAME) then cachesDelete key else mret tt.

(** The activate listener: [clients.claim] is called in the listener
    itself, the deletions run in the promise handed to [waitUntil]. *)
Definition neurolocalActivate : Async unit :=
  clientsClaim;;
  cacheKeys ← cachesKeys;
  forEach neurolocalDelete cacheKeys.

Definition neurolocalFetch (net : Network) (request : Request) (w : Worker)
  : Interception * Worker :=
  if Neurolocal.bypasses request then (PassThrough, w)
  else
    match matchOrFetch net request w with
    | (Resolved r, w') => (RespondWith (Resolved (Some r)), w')
    | (Rejected e, w') => (RespondWith (Rejected e), w')
    end.

(* --------------------------------------------------------------------- *)
(** *** The minimal [offline-ai-v3] worker                                *)
(* --------------------------------------------------------------------- *)

Definition MINIMAL_ASSETS : list string :=
  [ "./";
    "./index.html";
    "./app.js";
    "./tailwind.css";
    "./webllm.bundle.js";
    "./manifest.json" ].

Definition minimalInstallWith (assets : list string) (net : Network)
  : Async unit :=
  skipWaiting;;
  c ← cachesOpen Minimal.CACHE;
  addShell net c assets.

Definition minimalInstall (net : Network) : Async unit :=
  minimalInstallWith MINIMAL_ASSETS net.

Definition minimalActivate : Async unit := clientsClaim.

Definition minimalFetch (net : Network) (request : Request) (w : Worker)
  : Interception * Worker :=
  if negb (String.eqb (method request) "GET") then (PassThrough, w)
  else
    match matchOrFetch net request w with
    | (Resolved r, w') => (RespondWith (Resolved (Some r)), w')
    | (Rejected e, w') => (RespondWith (Rejected e), w')
    end.

End Shell.

End AppShell.

(* ===================================================================== *)
(** ** The page: chat history bookkeeping                                 *)
(* ===================================================================== *)

(** The list operations of [sendMessage] in the main application: the
    context handed to the engine and the history kept afterwards. *)
Module Chat.

Inductive Role := user | assistant | system.

Record ChatMessage := mkChatMessage {
  role    : Role;
  content : string
}.

(** [l.slice(-n)] for a positive [n]: the last [n] elements, or all of
    [l] when it has fewer. *)
Definition sliceLast {A} (n : nat) (l : list A) : list A :=
  skipn (length l - n) l.

(** [[...this.chatHistory.slice(-10), { role: 'user', content: text }]]. *)
Definition contextMessages (chatHistory : list ChatMessage) (text : string)
  : list ChatMessage :=
  sliceLast 10 chatHistory ++ [mkChatMessage user text].

(** [this.chatHistory.push(user, assistant)], then the cut to the last
    50 messages. *)
Definition recordExchange (chatHistory : list ChatMessage)
  (text fullResponse : string) : list ChatMessage :=
  let pushed := chatHistory ++ [mkChatMessage user text;
                                mkChatMessage assistant fullResponse] in
  if (50 <? length pushed)%nat then sliceLast 50 pushed else pushed.

(** A history made of exchanges: a user message, then the assistant's
    answer, and so on. *)
Fixpoint paired (l : list ChatMessage) : Prop :=
  match l with
  | [] => True
  | question :: answer :: rest =>
      role question = user /\ role answer = assistant /\ paired rest
  | [_] => False
  end.

End Chat.

(* ===================================================================== *)
(** ** The classifier of the specification, and sample inputs             *)
(* ===================================================================== *)

(** The bypass rule in the specification's words (rule 1 of its request
    classifier): the method is not GET, or the host is a known
    large-model-hosting domain, or the path ends in a large-binary
    extension, or the path contains the models directory. *)
Definition specBypass (r : Request) : bool :=
  negb (String.eqb (method r) "GET") ||
  JsString.includes (hostname (target r)) "huggingface" ||
  JsString.includes (hostname (target r)) "mlc-ai" ||
  JsString.endsWith (pathname (target r)) ".bin" ||
  JsString.endsWith (pathname (target r)) ".wasm" ||
  JsString.includes (pathname (target r)) "/dist/models/".

Module Sample.

Import OfflineAI.

Definition appOrigin : string := "https://app.example".

Definition https (h p : string) : URL := mkURL "https:" h "" p "" "".

(** GET https://huggingface.co/org/model.bin *)
Definition hfModelGet : Request :=
  mkRequest "GET" (https "huggingface.co" "/org/model.bin") (Some "*/*").

(** POST https://app.example/api/chat *)
Definition apiChatPost : Request :=
  mkRequest "POST" (https "app.example" "/api/chat") (Some "application/json").

(** GET https://app.example/api/status *)
Definition apiStatusGet : Request :=
  mkRequest "GET" (https "app.example" "/api/status") (Some "application/json").

(** GET https://cdn.jsdelivr.net/npm/marked/marked.min.js *)
Definition cdnScriptGet : Request :=
  mkRequest "GET" (https "cdn.jsdelivr.net" "/npm/marked/marked.min.js") (Some "*/*").

(** GET https://app.example/app.js *)
Definition appScriptGet : Request :=
  mkRequest "GET" (https "app.example" "/app.js") (Some "*/*").

(** A navigation to https://app.example/index.html *)
Definition indexNavigation : Request :=
  mkRequest "GET" (https "app.example" "/index.html")
            (Some "text/html,application/xhtml+xml").

(** GET https://app.example/dist/models/llama/params.json *)
Definition modelShardGet : Request :=
  mkRequest "GET" (https "app.example" "/dist/models/llama/params.json") None.

Definition page (content : string) : Response := mkResponse 200 content.
Definition notFound : Response := mkResponse 404 "Not Found".

(** Every URL answers 200. *)
Definition online : Network := fun key => Some (page ("content of " +:+ key)).

(** Every fetch rejects. *)
Definition offline : Network := fun _ => None.

(** Every URL answers 404. *)
Definition missing : Network := fun _ => Some notFound.


Definition fresh : Worker := mkWorker [] [] false false.

(** The worker after a successful first install. *)
Definition installed : Worker := snd (install appOrigin online fresh).

(** A worker whose runtime cache already holds [app.js]. *)
Definition warmed : Worker :=
  mkWorker [(CACHE_NAME, {[ url appScriptGet := page "cached app.js" ]})]
           [] true true.

Definition modelWeights : string := "https://huggingface.co/org/model.bin".

(** A worker that still holds the generation of an older deployment. *)
Definition upgraded : Worker :=
  mkWorker [ ("offline-ai-v2", {[ url appScriptGet := page "old app.js" ]});
             (CORE_CACHE, {[ "https://app.example/index.html" := page "shell" ]});
             (CACHE_NAME, {[ url appScriptGet := page "cached app.js" ]}) ]
           [] true false.

End Sample.

(* ===================================================================== *)
(** ** Facts on the string methods                                        *)
(* ===================================================================== *)

Module JsStringFacts.

Lemma prefix_append (p s : string) : String.prefix p (p +:+ s) = true.
Proof.
  induction p as [|c p IH]; simpl.
  - by destruct s.
  - destruct (ascii_dec c c); [exact IH | congruence].
Qed.

Lemma includes_prefix (s needle : string) :
  String.prefix needle s = true -> JsString.includes s needle = true.
Proof. intros H. destruct s; simpl in *; rewrite H; reflexivity. Qed.

Lemma includes_append_r (a b needle : string) :
  JsString.includes b needle = true ->
  JsString.includes (a +:+ b) needle = true.
Proof.
  intros H. induction a as [|c a IH]; simpl; [exact H|].
  rewrite IH. apply orb_true_r.
Qed.

(** Every serialised URL contains a slash: the one after the scheme. *)
Lemma href_includes_slash (u : URL) : JsString.includes (href u) "/" = true.
Proof.
  unfold href. apply includes_append_r, includes_prefix.
  apply (prefix_append "/").
Qed.

End JsStringFacts.

(* ===================================================================== *)
(** ** Request classification                                             *)
(* ===================================================================== *)

Module Classification.

Import OfflineAI JsStringFacts.

(** Case analysis on every test of an [if] chain. *)
Ltac case_ifs :=
  repeat match goal with
         | |- context [if ?b then _ else _] => destruct b
         end.

Lemma isCoreAsset_always (u : URL) : isCoreAsset u = true.
Proof.
  unfold isCoreAsset, CORE_ASSETS. cbn [existsb].
  rewrite href_includes_slash. reflexivity.
Qed.

Lemma skips_branch (request : Request) :
  skips request = true <-> bucket (branch request) = BYPASS.
Proof.
  unfold skips, branch.
  destruct (negb (String.eqb (method request) "GET")); [by split|].
  destruct (JsString.startsWith (url request) "chrome-extension://"); [by split|].
  destruct (JsString.includes (url request) "/dist/models/"); [by split|].
  cbn [orb].
  case_ifs;
    split; discriminate.
Qed.

(** The [try] block calls the strategy that [branch] names. *)
Lemma strategy_branch (net : Network) (request : Request) :
  skips request = false ->
  strategy net request =
  match branch request with
  | CoreCacheFirst => cacheFirst net request
  | CdnStaleWhileRevalidate => staleWhileRevalidate net request
  | _ => networkFirst net request
  end.
Proof.
  unfold skips, strategy, branch. intros H.
  apply orb_false_elim in H as [H H3]. apply orb_false_elim in H as [H1 H2].
  rewrite H1, H2, H3.
  case_ifs;
    reflexivity.
Qed.

(** C10.  The core-asset predicate holds of every URL, because the
    manifest entry [/] is a substring of every serialised URL.  Hence a
    request that reaches the strategy dispatch and whose path has no
    [/api/] is handled by the cache-first branch, and neither the
    stale-while-revalidate branch nor the final network-first branch is
    ever taken. *)
Theorem core_asset_rule_claims_every_request (request : Request) :
  isCoreAsset (target request) = true /\
  (skips request = false ->
   JsString.includes (pathname (target request)) "/api/" = false ->
   branch request = CoreCacheFirst /\
   forall net, strategy net request = cacheFirst net request) /\
  branch request <> CdnStaleWhileRevalidate /\
  branch request <> DefaultNetworkFirst /\
  (forall net,
      strategy net request = cacheFirst net request \/
      JsString.includes (pathname (target request)) "/api/" = true /\
      strategy net request = networkFirst net request).
Proof.
  pose proof (isCoreAsset_always (target request)) as Hcore.
  split; [exact Hcore|]. split; [|split; [|split]].
  - intros Hskip Hapi.
    assert (Hb : branch request = CoreCacheFirst).
    { unfold skips in Hskip. unfold branch.
      apply orb_false_elim in Hskip as [H H3].
      apply orb_false_elim in H as [H1 H2].
      rewrite H1, H2, H3, Hapi, Hcore. reflexivity. }
    split; [exact Hb|]. intros net.
    rewrite (strategy_branch net request Hskip), Hb. reflexivity.
  - unfold branch. rewrite Hcore. cbn [orb].
    case_ifs;
      discriminate.
  - unfold branch. rewrite Hcore. cbn [orb].
    case_ifs;
      discriminate.
  - intros net. unfold strategy. rewrite Hcore. cbn [orb].
    destruct (JsString.includes (pathname (target request)) "/api/");
      [right; split; reflexivity | left; reflexivity].
Qed.

Lemma core_asset_rule_claims_every_request_witness :
  OfflineAI.skips Sample.cdnScriptGet = false /\
  OfflineAI.isCDNAsset (target Sample.cdnScriptGet) = true /\
  OfflineAI.branch Sample.cdnScriptGet = OfflineAI.CoreCacheFirst.
Proof.
  split; [reflexivity|]. split; [reflexivity|].
  destruct (core_asset_rule_claims_every_request Sample.cdnScriptGet)
    as (_ & H & _).
  apply H; reflexivity.
Defined.

(** C4, as the specification words it, fails on each worker: the full
    worker answers a GET for a model file on huggingface cache first, and
    the neurolocal worker answers a POST cache first; the minimal worker
    looks at the method only. *)
Lemma bypass_claim_counterexample :
  specBypass Sample.hfModelGet = true /\
  OfflineAI.classify Sample.hfModelGet = CACHE_FIRST /\
  OfflineAI.skips Sample.hfModelGet = false /\
  specBypass Sample.apiChatPost = true /\
  Neurolocal.classify Sample.apiChatPost = CACHE_FIRST /\
  Minimal.classify Sample.hfModelGet = CACHE_FIRST.
Proof. repeat split; reflexivity. Qed.

Lemma neurolocal_bypasses_iff (r : Request) :
  Neurolocal.bypasses r = true <->
  JsString.includes (hostname (target r)) "huggingface" = true \/
  JsString.includes (hostname (target r)) "mlc-ai" = true \/
  JsString.endsWith (pathname (target r)) ".bin" = true \/
  JsString.endsWith (pathname (target r)) ".wasm" = true.
Proof.
  unfold Neurolocal.bypasses. cbv zeta.
  rewrite !orb_true_iff. tauto.
Qed.

(** C4, amended.  The full worker leaves a request to the network
    exactly when its method is not GET, or its URL starts with
    [chrome-extension://], or its URL contains [/dist/models/]; the method
    is tested first, so a request that is not a GET is bypassed whatever
    its URL.  The neurolocal worker leaves a request to the network
    exactly when the host name contains [huggingface] or [mlc-ai] or the
    path ends in [.bin] or [.wasm], whatever the method and the headers. *)
Theorem bypass_rules_of_the_workers (r : Request) :
  (OfflineAI.classify r = BYPASS <->
     method r <> "GET" \/
     JsString.startsWith (url r) "chrome-extension://" = true \/
     JsString.includes (url r) "/dist/models/" = true) /\
  (method r <> "GET" -> OfflineAI.branch r = SkipNonGet) /\
  (Neurolocal.classify r = BYPASS <->
     JsString.includes (hostname (target r)) "huggingface" = true \/
     JsString.includes (hostname (target r)) "mlc-ai" = true \/
     JsString.endsWith (pathname (target r)) ".bin" = true \/
     JsString.endsWith (pathname (target r)) ".wasm" = true) /\
  (forall m a,
      Neurolocal.classify (mkRequest m (target r) a) = Neurolocal.classify r).
Proof.
  split; [|split; [|split]].
  - unfold classify. rewrite <- skips_branch. unfold skips.
    rewrite !orb_true_iff, negb_true_iff.
    destruct (String.eqb_spec (method r) "GET") as [Heq|Hne].
    + split; [intros [[H|H]|H]; [discriminate | tauto | tauto]|].
      intros [H|[H|H]]; [contradiction | tauto | tauto].
    + split; [tauto | intros _; left; left; reflexivity].
  - intros Hne. unfold branch.
    destruct (String.eqb_spec (method r) "GET"); [contradiction | reflexivity].
  - rewrite <- neurolocal_bypasses_iff. unfold Neurolocal.classify.
    destruct (Neurolocal.bypasses r); split; intros; congruence.
  - intros m a. reflexivity.
Qed.

Lemma bypass_rules_of_the_workers_witness :
  OfflineAI.branch Sample.apiChatPost = OfflineAI.SkipNonGet /\
  OfflineAI.classify Sample.modelShardGet = BYPASS /\
  Neurolocal.classify Sample.hfModelGet = BYPASS.
Proof.
  split; [|split].
  - destruct (bypass_rules_of_the_workers Sample.apiChatPost) as (_ & H & _).
    apply H. discriminate.
  - destruct (bypass_rules_of_the_workers Sample.modelShardGet) as ([_ H] & _).
    apply H. right; right; reflexivity.
  - destruct (bypass_rules_of_the_workers Sample.hfModelGet)
      as (_ & _ & [_ H] & _).
    apply H. right; right; left; reflexivity.
Defined.

End Classification.

(* ===================================================================== *)
(** ** Cache storage                                                      *)
(* ===================================================================== *)

Module Storage.

Import OfflineAI.

Lemma lookupCache_app (cs : CacheStorage) (n m : string) (c : Cache) :
  lookupCache (cs ++ [(n, c)]) m =
  match lookupCache cs m with
  | Some found => Some found
  | None => if String.eqb n m then Some c else None
  end.
Proof.
  induction cs as [|[n' c'] cs IH]; simpl; [reflexivity|].
  destruct (String.eqb n' m); [reflexivity | exact IH].
Qed.

Lemma lookupCache_open_same (cs : CacheStorage) (n : string) :
  lookupCache (openCache cs n) n = Some (default ∅ (lookupCache cs n)).
Proof.
  unfold openCache. destruct (lookupCache cs n) as [c|] eqn:E.
  - rewrite E. reflexivity.
  - rewrite lookupCache_app, E, String.eqb_refl. reflexivity.
Qed.

Lemma lookupCache_open_other (cs : CacheStorage) (n m : string) :
  n <> m -> lookupCache (openCache cs n) m = lookupCache cs m.
Proof.
  intros Hne. unfold openCache. destruct (lookupCache cs n); [reflexivity|].
  rewrite lookupCache_app. destruct (lookupCache cs m); [reflexivity|].
  destruct (String.eqb_spec n m); [contradiction | reflexivity].
Qed.

Lemma lookupCache_putIn (cs : CacheStorage) (n k m : string) (r : Response) :
  lookupCache (putIn cs n k r) m =
  if String.eqb m n then <[k := r]> <$> lookupCache cs m else lookupCache cs m.
Proof.
  induction cs as [|[n' c'] cs IH]; simpl.
  - destruct (String.eqb m n); reflexivity.
  - destruct (String.eqb_spec n' n) as [->|Hn]; simpl.
    + destruct (String.eqb_spec n m) as [->|Hm].
      * rewrite String.eqb_refl. reflexivity.
      * rewrite IH. reflexivity.
    + destruct (String.eqb_spec n' m) as [->|Hm].
      * destruct (String.eqb_spec m n); [contradiction | reflexivity].
      * exact IH.
Qed.

Lemma keys_putIn (cs : CacheStorage) (n k : string) (r : Response) :
  keys (putIn cs n k r) = keys cs.
Proof.
  unfold keys, putIn. rewrite map_map. apply map_ext.
  intros [n' c']. simpl. destruct (String.eqb n' n); reflexivity.
Qed.

Lemma lookupCache_keys (cs : CacheStorage) (n : string) :
  In n (keys cs) <-> lookupCache cs n <> None.
Proof.
  induction cs as [|[n' c'] cs IH]; simpl; [tauto|].
  destruct (String.eqb_spec n' n) as [->|Hne].
  - split; [discriminate | tauto].
  - rewrite <- IH. tauto.
Qed.

(** Reading through a handle after a write through the same handle. *)
Lemma matchIn_putIn_same (cs : CacheStorage) (n k : string) (r : Response) :
  lookupCache cs n <> None -> matchIn (putIn cs n k r) n k = Some r.
Proof.
  intros H. unfold matchIn. rewrite lookupCache_putIn, String.eqb_refl.
  destruct (lookupCache cs n); [|contradiction]. simpl.
  apply lookup_insert_eq.
Qed.

Lemma filter_filter {A} (f g : A -> bool) (l : list A) :
  List.filter f (List.filter g l) = List.filter (fun x => g x && f x) l.
Proof.
  induction l as [|x l IH]; simpl; [reflexivity|].
  destruct (g x); simpl; [destruct (f x)|]; rewrite ?IH; reflexivity.
Qed.

Lemma filter_all {A} (f : A -> bool) (l : list A) :
  (forall x, In x l -> f x = true) -> List.filter f l = l.
Proof.
  induction l as [|x l IH]; simpl; intros H; [reflexivity|].
  rewrite (H x (or_introl eq_refl)), IH; [reflexivity|]. auto.
Qed.

Lemma lookupCache_filter (keep : string -> bool) (cs : CacheStorage) (n : string) :
  lookupCache (List.filter (fun entry => keep (fst entry)) cs) n =
  if keep n then lookupCache cs n else None.
Proof.
  induction cs as [|[n' c'] cs IH]; simpl.
  - destruct (keep n); reflexivity.
  - destruct (String.eqb_spec n' n) as [->|Hne].
    + destruct (keep n); simpl; [rewrite String.eqb_refl; reflexivity | exact IH].
    + destruct (keep n'); simpl; [|exact IH].
      destruct (String.eqb_spec n' n); [contradiction | exact IH].
Qed.

End Storage.

(* ===================================================================== *)
(** ** Lifecycle: activation                                              *)
(* ===================================================================== *)

Module Activation.

Import OfflineAI Storage.

Lemma kept_registry (n : string) : kept n = true <-> In n registry.
Proof.
  unfold kept, registry. rewrite orb_true_iff, !String.eqb_eq. simpl.
  split; [intros [->| ->]; auto | intros [<-|[<-|[]]]; auto].
Qed.

Lemma deleteIfOld_run (key : string) (w : Worker) :
  fst (deleteIfOld key w) = Resolved tt /\
  caches (snd (deleteIfOld key w)) =
    (if kept key then caches w else deleteCache (caches w) key) /\
  skippedWaiting (snd (deleteIfOld key w)) = skippedWaiting w /\
  claimedClients (snd (deleteIfOld key w)) = claimedClients w.
Proof.
  unfold deleteIfOld, kept.
  destruct (String.eqb key CACHE_NAME), (String.eqb key CORE_CACHE);
    simpl; repeat split; reflexivity.
Qed.

Lemma forEach_deleteIfOld (l : list string) (w : Worker) :
  fst (forEach deleteIfOld l w) = Resolved tt /\
  caches (snd (forEach deleteIfOld l w)) =
    List.filter
      (fun entry => kept (fst entry) || negb (existsb (String.eqb (fst entry)) l))
      (caches w) /\
  skippedWaiting (snd (forEach deleteIfOld l w)) = skippedWaiting w /\
  claimedClients (snd (forEach deleteIfOld l w)) = claimedClients w.
Proof.
  revert w. induction l as [|key l IH]; intros w.
  - simpl. repeat split; try reflexivity.
    symmetry. apply filter_all. intros x _. apply orb_true_r.
  - cbn [forEach]. unfold mbind, async_bind.
    destruct (deleteIfOld_run key w) as (Hres & Hcs & Hskip & Hclaim).
    destruct (deleteIfOld key w) as [res w1]. simpl in Hres, Hcs, Hskip, Hclaim.
    subst res. destruct (IH w1) as (IHres & IHcs & IHskip & IHclaim).
    repeat split; [exact IHres | | congruence | congruence].
    rewrite IHcs, Hcs. destruct (kept key) eqn:Hkept.
    + apply filter_ext. intros [n c]. simpl.
      destruct (String.eqb_spec n key) as [->|Hne]; [|reflexivity].
      rewrite Hkept. reflexivity.
    + unfold deleteCache. rewrite filter_filter. apply filter_ext.
      intros [n c]. simpl.
      destruct (String.eqb_spec n key) as [->|Hne]; simpl; [|reflexivity].
      rewrite Hkept. reflexivity.
Qed.

(** What the activate listener leaves: the storage filtered by the
    registry, and the clients claimed. *)
Lemma activate_run (w : Worker) :
  fst (activate w) = Resolved tt /\
  caches (snd (activate w)) =
    List.filter (fun entry => kept (fst entry)) (caches w) /\
  claimedClients (snd (activate w)) = true.
Proof.
  unfold activate, mbind, async_bind, cachesKeys.
  destruct (forEach_deleteIfOld (keys (caches w)) w) as (Hres & Hcs & _).
  destruct (forEach deleteIfOld (keys (caches w)) w) as [res w1].
  simpl in Hres, Hcs. subst res. simpl. repeat split.
  rewrite Hcs. apply filter_ext_in. intros [n c] Hin. simpl.
  assert (existsb (String.eqb n) (keys (caches w)) = true) as ->.
  { apply existsb_exists. exists n. split; [|apply String.eqb_refl].
    unfold keys. apply in_map_iff. exists (n, c). auto. }
  apply orb_false_r.
Qed.

Lemma keys_filter_kept (cs : CacheStorage) (n : string) :
  In n (keys (List.filter (fun entry => kept (fst entry)) cs)) <->
  In n (keys cs) /\ kept n = true.
Proof.
  unfold keys. rewrite !in_map_iff. split.
  - intros ([n' c] & <- & Hin). apply filter_In in Hin as [Hin Hk].
    split; [exists (n', c); auto | exact Hk].
  - intros [([n' c] & <- & Hin) Hk]. exists (n', c). split; [reflexivity|].
    apply filter_In. auto.
Qed.

(** C3.  After the activate listener has run, the storage holds exactly
    the generations it held before whose name is in the registry; every
    other generation is gone from [caches.keys()], and the generations of
    the registry have the contents they had. *)
Theorem activate_keeps_exactly_the_registry (w : Worker) :
  fst (activate w) = Resolved tt /\
  (forall n, In n (keys (caches (snd (activate w)))) <->
             In n (keys (caches w)) /\ In n registry) /\
  (forall n, In n registry ->
             lookupCache (caches (snd (activate w))) n = lookupCache (caches w) n) /\
  (forall n, ~ In n registry ->
             lookupCache (caches (snd (activate w))) n = None) /\
  claimedClients (snd (activate w)) = true.
Proof.
  destruct (activate_run w) as (Hres & Hcs & Hclaim).
  split; [exact Hres|]. rewrite Hcs.
  split; [|split; [|split; [|exact Hclaim]]].
  - intros n. rewrite keys_filter_kept, kept_registry. reflexivity.
  - intros n Hn. rewrite lookupCache_filter.
    apply kept_registry in Hn. rewrite Hn. reflexivity.
  - intros n Hn. rewrite lookupCache_filter.
    destruct (kept n) eqn:E; [|reflexivity].
    apply kept_registry in E. contradiction.
Qed.

Lemma activate_keeps_exactly_the_registry_witness :
  keys (caches Sample.upgraded) = ["offline-ai-v2"; CORE_CACHE; CACHE_NAME] /\
  lookupCache (caches (snd (activate Sample.upgraded))) "offline-ai-v2" = None /\
  lookupCache (caches (snd (activate Sample.upgraded))) CORE_CACHE =
  lookupCache (caches Sample.upgraded) CORE_CACHE.
Proof.
  split; [reflexivity|].
  destruct (activate_keeps_exactly_the_registry Sample.upgraded)
    as (_ & _ & Hkeep & Hgone & _).
  split.
  - apply Hgone. unfold registry. simpl. intros [H|[H|[]]]; discriminate.
  - apply Hkeep. unfold registry. simpl. auto.
Defined.

End Activation.

(* ===================================================================== *)
(** ** The model cache writer                                             *)
(* ===================================================================== *)

Module ModelCache.

Import OfflineAI Storage Activation.

Section Writer.

Variable origin : string.
Variable net : Network.

Lemma cacheModel_resolved (u : string) (r : Response) (w : Worker) :
  net (resolve origin u) = Some r ->
  fst (cacheModel origin net u w) = Resolved tt /\
  caches (snd (cacheModel origin net u w)) =
    putIn (openCache (caches w) (name MODEL_CACHE_CONFIG))
          (name MODEL_CACHE_CONFIG) (resolve origin u) r.
Proof.
  intros Hnet. unfold cacheModel, tryCatch, mbind, async_bind, fetch.
  rewrite Hnet. simpl. split; reflexivity.
Qed.



(** C1 fails on the code.  The activate listener keeps [CACHE_NAME] and
    [CORE_CACHE] only; the model cache is neither, so an activation that
    follows the writer deletes the generation the writer has just filled:
    the entry that was matchable before the activation is gone after it. *)
Theorem activation_deletes_the_model_cache (u : string) (r : Response) (w : Worker) :
  net (resolve origin u) = Some r ->
  matchIn (caches (snd (cacheModel origin net u w)))
          (name MODEL_CACHE_CONFIG) (resolve origin u) = Some r /\
  ~ In (name MODEL_CACHE_CONFIG)
       (keys (caches (snd (activate (snd (cacheModel origin net u w)))))) /\
  matchIn (caches (snd (activate (snd (cacheModel origin net u w)))))
          (name MODEL_CACHE_CONFIG) (resolve origin u) = None.
Proof.
  intros Hnet. destruct (cacheModel_resolved u r w Hnet) as [_ Hcs].
  destruct (activate_run (snd (cacheModel origin net u w))) as (_ & Hact & _).
  split; [|split].
  - rewrite Hcs. apply matchIn_putIn_same.
    rewrite lookupCache_open_same. discriminate.
  - rewrite Hact, keys_filter_kept. intros [_ H]. discriminate H.
  - unfold matchIn. rewrite Hact, lookupCache_filter. reflexivity.
Qed.

End Writer.


Lemma activation_deletes_the_model_cache_witness :
  Sample.online (resolve Sample.appOrigin Sample.modelWeights)
    = Some (Sample.page ("content of " +:+ Sample.modelWeights)) /\
  matchIn (caches (snd (activate (snd (cacheModel Sample.appOrigin Sample.online
                                          Sample.modelWeights Sample.installed)))))
          (name MODEL_CACHE_CONFIG) Sample.modelWeights = None.
Proof.
  split; [reflexivity|].
  apply (activation_deletes_the_model_cache Sample.appOrigin Sample.online
           Sample.modelWeights
           (Sample.page ("content of " +:+ Sample.modelWeights))
           Sample.installed).
  reflexivity.
Defined.

End ModelCache.

(* ===================================================================== *)
(** ** Lifecycle: installation                                            *)
(* ===================================================================== *)

Module Installation.

Import OfflineAI Storage Activation.

Section Install.

Variable origin : string.
Variable net : Network.

Lemma fetchAll_fetched (assets : list string) (fetched : list (string * Response)) :
  fetchAll origin net assets = inr fetched ->
  (forall k r, In (k, r) fetched -> net k = Some r) /\
  (forall a, In a assets -> exists r, In (resolve origin a, r) fetched).
Proof.
  revert fetched. induction assets as [|asset rest IH]; simpl; intros fetched H.
  - injection H as <-. split; [intros k r []| intros a []].
  - destruct (net (resolve origin asset)) as [r|] eqn:Hnet; [|discriminate].
    destruct (ok r); [|discriminate].
    destruct (fetchAll origin net rest) as [e|tail]; [discriminate|].
    injection H as <-. destruct (IH tail eq_refl) as [IH1 IH2]. split.
    + intros k r' [[= <- <-]|Hin]; [exact Hnet | exact (IH1 k r' Hin)].
    + intros a [<-|Hin]; [exists r; left; reflexivity|].
      destruct (IH2 a Hin) as [r' Hr']. exists r'. right. exact Hr'.
Qed.



(** The core cache after [putAll]: a fetched key holds what the network
    answered for it, any other key what it held before. *)
Lemma putAll_match (cache : string) (fetched : list (string * Response))
  (cs : CacheStorage) (c : Cache) (key : string) :
  lookupCache cs cache = Some c ->
  (forall k r, In (k, r) fetched -> net k = Some r) ->
  matchIn (putAll cs cache fetched) cache key =
  if existsb (fun entry => String.eqb (fst entry) key) fetched
  then net key else c !! key.
Proof.
  revert cs c. induction fetched as [|[k r] rest IH]; intros cs c Hc Hnet.
  - unfold matchIn. simpl. rewrite Hc. reflexivity.
  - unfold putAll. cbn [fold_left fst snd existsb].
    change (fold_left _ rest ?acc) with (putAll acc cache rest).
    rewrite (IH (putIn cs cache k r) (<[k := r]> c)).
    + destruct (existsb _ rest); [rewrite orb_true_r; reflexivity|].
      rewrite orb_false_r.
      destruct (String.eqb_spec k key) as [->|Hne].
      * rewrite lookup_insert_eq. symmetry. apply Hnet. left. reflexivity.
      * apply lookup_insert_ne, Hne.
    + rewrite lookupCache_putIn, String.eqb_refl, Hc. reflexivity.
    + intros k' r' Hin. apply Hnet. right. exact Hin.
Qed.

Lemma installWith_run (assets : list string) (w : Worker) :
  match fetchAll origin net assets with
  | inr fetched =>
      fst (installWith origin assets net w) = Resolved tt /\
      caches (snd (installWith origin assets net w)) =
        putAll (openCache (caches w) CORE_CACHE) CORE_CACHE fetched /\
      skippedWaiting (snd (installWith origin assets net w)) = true
  | inl e =>
      installWith origin assets net w =
        (Rejected e, withCaches (openCache (caches w) CORE_CACHE) w)
  end.
Proof.
  unfold installWith, mbind, async_bind, cachesOpen, addAll.
  destruct (fetchAll origin net assets); simpl; auto.
Qed.

(** After a resolved install the core cache answers every manifest URL
    with what the network gave for it. *)
Lemma installWith_matches (assets : list string) (w : Worker) (a : string) :
  fst (installWith origin assets net w) = Resolved tt -> In a assets ->
  exists r, net (resolve origin a) = Some r /\
            matchIn (caches (snd (installWith origin assets net w)))
                    CORE_CACHE (resolve origin a) = Some r.
Proof.
  pose proof (installWith_run assets w) as Hrun. intros Hres Hin.
  destruct (fetchAll origin net assets) as [e|fetched] eqn:Hfetch.
  { rewrite Hrun in Hres. discriminate. }
  destruct Hrun as (_ & Hcs & _).
  destruct (fetchAll_fetched assets fetched Hfetch) as [Hnet Hall].
  destruct (Hall a Hin) as [r Hr]. exists r. split; [exact (Hnet _ _ Hr)|].
  rewrite Hcs.
  rewrite (putAll_match CORE_CACHE fetched _ _ (resolve origin a)
             (lookupCache_open_same (caches w) CORE_CACHE) Hnet).
  assert (existsb (fun entry : string * Response =>
                     String.eqb (fst entry) (resolve origin a)) fetched = true)
    as ->.
  { apply existsb_exists. exists (resolve origin a, r).
    split; [exact Hr | apply String.eqb_refl]. }
  exact (Hnet _ _ Hr).
Qed.


End Install.


End Installation.

(* ===================================================================== *)
(** ** Strategies                                                         *)
(* ===================================================================== *)

Module Strategies.

Import OfflineAI JsStringFacts Classification Storage.

Lemma matchAny_app (cs : CacheStorage) (n key : string) :
  matchAny (cs ++ [(n, ∅)]) key = matchAny cs key.
Proof.
  induction cs as [|[n' c'] cs IH]; simpl.
  - rewrite lookup_empty. reflexivity.
  - rewrite IH. reflexivity.
Qed.

Lemma matchAny_open (cs : CacheStorage) (n key : string) :
  matchAny (openCache cs n) key = matchAny cs key.
Proof.
  unfold openCache. destruct (lookupCache cs n); [reflexivity|].
  apply matchAny_app.
Qed.

(** A write does not hide a key that was matchable. *)
Lemma matchAny_putIn_some (cs : CacheStorage) (n k key : string) (r : Response) :
  is_Some (matchAny cs key) -> is_Some (matchAny (putIn cs n k r) key).
Proof.
  induction cs as [|[n' c'] cs IH]; simpl; [auto|]. intros H.
  destruct (String.eqb n' n); simpl.
  - destruct (String.eqb_spec k key) as [->|Hne].
    + rewrite lookup_insert_eq. eauto.
    + rewrite lookup_insert_ne by exact Hne.
      destruct (c' !! key); [eauto | exact (IH H)].
  - destruct (c' !! key); [eauto | exact (IH H)].
Qed.

(** A key that no generation held is answered, after a write, by the
    generation written to. *)
Lemma matchAny_putIn_fresh (cs : CacheStorage) (n key : string) (r : Response) :
  matchAny cs key = None -> In n (keys cs) ->
  matchAny (putIn cs n key r) key = Some r.
Proof.
  induction cs as [|[n' c'] cs IH]; simpl; [intros _ []|].
  destruct (c' !! key) eqn:Hc; [discriminate|]. intros Hnone Hin.
  destruct (String.eqb_spec n' n) as [->|Hne]; simpl.
  - rewrite lookup_insert_eq. reflexivity.
  - rewrite Hc. apply IH; [exact Hnone|]. destruct Hin; [contradiction | assumption].
Qed.

Lemma matchIn_open (cs : CacheStorage) (n key : string) :
  matchIn (openCache cs n) n key = matchIn cs n key.
Proof.
  unfold matchIn. rewrite lookupCache_open_same.
  destruct (lookupCache cs n); [reflexivity | apply lookup_empty].
Qed.

Lemma open_has_key (cs : CacheStorage) (n : string) : In n (keys (openCache cs n)).
Proof. apply lookupCache_keys. rewrite lookupCache_open_same. discriminate. Qed.

Section Runs.

Variable net : Network.
Variable request : Request.
Variable w : Worker.

Lemma networkFirst_run :
  networkFirst net request w =
  match net (url request) with
  | Some r =>
      (Resolved r,
       if ok r
       then withCaches (putIn (openCache (caches w) CACHE_NAME)
                              CACHE_NAME (url request) r) w
       else w)
  | None =>
      match matchAny (caches w) (url request) with
      | Some cached => (Resolved cached, w)
      | None => (Rejected (NetworkError (url request)), w)
      end
  end.
Proof.
  unfold networkFirst, tryCatch, mbind, async_bind, fetch, cachesMatch.
  destruct (net (url request)) as [r|]; simpl.
  - destruct (ok r); reflexivity.
  - destruct (matchAny (caches w) (url request)); reflexivity.
Qed.

Lemma cacheFirst_run :
  cacheFirst net request w =
  match matchIn (caches w) CACHE_NAME (url request) with
  | Some cached =>
      (Rejected (ReferenceError "event"),
       withCaches (openCache (caches w) CACHE_NAME) w)
  | None =>
      match net (url request) with
      | Some r =>
          (Resolved r,
           withCaches
             (if ok r
              then putIn (openCache (caches w) CACHE_NAME)
                         CACHE_NAME (url request) r
              else openCache (caches w) CACHE_NAME) w)
      | None =>
          (Rejected (NetworkError (url request)),
           withCaches (openCache (caches w) CACHE_NAME) w)
      end
  end.
Proof.
  unfold cacheFirst, mbind, async_bind, cachesOpen, cacheMatch, fetch. simpl.
  rewrite matchIn_open.
  destruct (matchIn (caches w) CACHE_NAME (url request)); [reflexivity|].
  destruct (net (url request)) as [r|]; [|reflexivity].
  destruct (ok r); reflexivity.
Qed.

Lemma staleWhileRevalidate_run :
  staleWhileRevalidate net request w =
  (Rejected (ReferenceError "event"),
   withCaches (openCache (caches w) CACHE_NAME) w).
Proof. reflexivity. Qed.

End Runs.

(** Whatever the strategy does, a key that some generation held before
    is still held afterwards: strategies only open and write. *)
Lemma strategy_keeps_cached (net : Network) (request : Request) (w : Worker)
  (key : string) :
  is_Some (matchAny (caches w) key) ->
  is_Some (matchAny (caches (snd (strategy net request w))) key).
Proof.
  intros H.
  assert (Hopen : is_Some (matchAny (openCache (caches w) CACHE_NAME) key))
    by (rewrite matchAny_open; exact H).
  assert (Hput : forall r,
             is_Some (matchAny (putIn (openCache (caches w) CACHE_NAME)
                                      CACHE_NAME (url request) r) key))
    by (intros r; apply matchAny_putIn_some, Hopen).
  unfold strategy.
  case_ifs;
    rewrite ?networkFirst_run, ?cacheFirst_run, ?staleWhileRevalidate_run;
    repeat match goal with
           | |- context [match ?x with _ => _ end] => destruct x
           end; simpl; auto.
Qed.




(** The miss path of cache first: the network is fetched; a response is
    returned, and stored under the request exactly when it is ok; a
    rejected fetch is propagated and nothing is stored. *)
Lemma cacheFirst_on_a_miss (net : Network) (request : Request) (w : Worker) :
  matchIn (caches w) CACHE_NAME (url request) = None ->
  (forall r, net (url request) = Some r ->
     fst (cacheFirst net request w) = Resolved r /\
     matchIn (caches (snd (cacheFirst net request w))) CACHE_NAME (url request)
       = if ok r then Some r else None) /\
  (net (url request) = None ->
     fst (cacheFirst net request w) = Rejected (NetworkError (url request)) /\
     matchIn (caches (snd (cacheFirst net request w))) CACHE_NAME (url request)
       = None).
Proof.
  intros Hmiss. split.
  - intros r Hnet. rewrite cacheFirst_run, Hmiss, Hnet. simpl.
    split; [reflexivity|]. destruct (ok r).
    + apply matchIn_putIn_same. rewrite lookupCache_open_same. discriminate.
    + rewrite matchIn_open. exact Hmiss.
  - intros Hnet. rewrite cacheFirst_run, Hmiss, Hnet. simpl.
    split; [reflexivity|]. rewrite matchIn_open. exact Hmiss.
Qed.

(** C6 fails on the code.  When the runtime generation holds the
    request, cache first does not return the cached response: it rejects
    with a reference error, because [event] is not bound inside
    [cacheFirst].  No refresh is started, so the entry stays as it was,
    and a second request for the same key rejects in the same way. *)
Theorem cacheFirst_rejects_on_a_hit
  (net : Network) (request : Request) (w : Worker) (cached : Response) :
  matchIn (caches w) CACHE_NAME (url request) = Some cached ->
  fst (cacheFirst net request w) = Rejected (ReferenceError "event") /\
  matchIn (caches (snd (cacheFirst net request w))) CACHE_NAME (url request)
    = Some cached /\
  fst (cacheFirst net request (snd (cacheFirst net request w)))
    = Rejected (ReferenceError "event").
Proof.
  intros Hhit.
  assert (Hrun : cacheFirst net request w =
                 (Rejected (ReferenceError "event"),
                  withCaches (openCache (caches w) CACHE_NAME) w))
    by (rewrite cacheFirst_run, Hhit; reflexivity).
  assert (Hstill : matchIn (caches (snd (cacheFirst net request w)))
                           CACHE_NAME (url request) = Some cached)
    by (rewrite Hrun; simpl; rewrite matchIn_open; exact Hhit).
  split; [rewrite Hrun; reflexivity|]. split; [exact Hstill|].
  rewrite (cacheFirst_run net request (snd (cacheFirst net request w))), Hstill.
  reflexivity.
Qed.

Lemma cacheFirst_rejects_on_a_hit_witness :
  matchIn (caches Sample.warmed) CACHE_NAME (url Sample.appScriptGet)
    = Some (Sample.page "cached app.js") /\
  fst (cacheFirst Sample.online Sample.appScriptGet Sample.warmed)
    = Rejected (ReferenceError "event") /\
  fst (respond Sample.appOrigin Sample.online Sample.appScriptGet Sample.warmed)
    = Rejected (ReferenceError "event").
Proof.
  split; [reflexivity|]. split; [|reflexivity].
  apply (cacheFirst_rejects_on_a_hit Sample.online Sample.appScriptGet
           Sample.warmed (Sample.page "cached app.js")).
  reflexivity.
Defined.

(** C7 fails on the code.  Stale-while-revalidate rejects with a
    reference error on every request, whether the cache holds it or not,
    and before any refresh is started; and the listener never selects it:
    a GET for a script on a CDN host is dispatched to cache first. *)
Theorem staleWhileRevalidate_never_serves
  (net : Network) (request : Request) (w : Worker) :
  fst (staleWhileRevalidate net request w) = Rejected (ReferenceError "event") /\
  branch request <> CdnStaleWhileRevalidate /\
  isCDNAsset (target Sample.cdnScriptGet) = true /\
  skips Sample.cdnScriptGet = false /\
  strategy net Sample.cdnScriptGet = cacheFirst net Sample.cdnScriptGet.
Proof.
  split; [reflexivity|]. split; [|repeat split; reflexivity].
  unfold branch. rewrite isCoreAsset_always. cbn [orb].
  case_ifs;
    discriminate.
Qed.

End Strategies.

(* ===================================================================== *)
(** ** The fetch listener's failure path                                  *)
(* ===================================================================== *)

Module Interception.

Import OfflineAI Storage Activation Installation Strategies.

Lemma matchIn_matchAny (cs : CacheStorage) (n key : string) (r : Response) :
  matchIn cs n key = Some r -> is_Some (matchAny cs key).
Proof.
  unfold matchIn. induction cs as [|[n' c'] cs IH]; simpl; [discriminate|].
  destruct (String.eqb n' n).
  - intros ->. eauto.
  - intros H. destruct (c' !! key); [eauto | exact (IH H)].
Qed.

(** The offline document is a manifest entry: a deployment that reaches
    activation leaves it matchable. *)
Lemma offline_document_after_deploy (origin : string) (net : Network) (w : Worker) :
  fst (deployWith origin CORE_ASSETS net w) = Activated ->
  is_Some (matchAny (caches (snd (deployWith origin CORE_ASSETS net w)))
                    (resolve origin "/index.html")).
Proof.
  unfold deployWith.
  pose proof (installWith_matches origin net CORE_ASSETS w "/index.html") as Hm.
  destruct (installWith origin CORE_ASSETS net w) as [[[]|e] w1];
    [|discriminate].
  intros _. simpl in *.
  destruct Hm as (r & _ & Hr); [reflexivity | simpl; auto |].
  destruct (activate_run w1) as (_ & Hcs & _).
  apply (matchIn_matchAny _ CORE_CACHE _ r).
  unfold matchIn in *. rewrite Hcs, lookupCache_filter. exact Hr.
Qed.

Lemma respond_run (origin : string) (net : Network) (request : Request) (w : Worker) :
  fst (respond origin net request w) =
  match strategy net request w with
  | (Resolved r, _) => Resolved (Some r)
  | (Rejected e, w') =>
      if acceptsHtml request
      then Resolved (matchAny (caches w') (resolve origin "/index.html"))
      else Rejected e
  end.
Proof.
  unfold respond, tryCatch, mbind, async_bind, consoleError, cachesMatch.
  destruct (strategy net request w) as [[r|e] w']; simpl; [reflexivity|].
  destruct (acceptsHtml request); reflexivity.
Qed.

(** C8.  When the strategy of an intercepted request rejects: for a
    request that accepts HTML the listener does not reject but resolves
    with what [caches.match] finds for the offline document
    [/index.html], which is a cached document whenever some generation
    held one before the request (as after every deployment); for any other
    request the listener rejects with the strategy's error. *)
Theorem respond_falls_back_for_documents
  (origin : string) (net : Network) (request : Request) (w w' : Worker)
  (e : JsError) :
  strategy net request w = (Rejected e, w') ->
  (acceptsHtml request = true ->
     fst (respond origin net request w) =
       Resolved (matchAny (caches w') (resolve origin "/index.html")) /\
     (is_Some (matchAny (caches w) (resolve origin "/index.html")) ->
      exists doc, fst (respond origin net request w) = Resolved (Some doc))) /\
  (acceptsHtml request = false ->
     fst (respond origin net request w) = Rejected e) /\
  (skips request = false ->
     fst (onFetch origin net request w) =
       RespondWith (fst (respond origin net request w))).
Proof.
  intros Hfail. split; [|split].
  - intros Hhtml. rewrite respond_run, Hfail, Hhtml.
    split; [reflexivity|]. intros Hdoc.
    pose proof (strategy_keeps_cached net request w _ Hdoc) as [doc Hkept].
    rewrite Hfail in Hkept. simpl in Hkept. rewrite Hkept. eauto.
  - intros Hhtml. rewrite respond_run, Hfail, Hhtml. reflexivity.
  - intros Hskip. unfold onFetch. rewrite Hskip.
    destruct (respond origin net request w). reflexivity.
Qed.

Lemma respond_falls_back_for_documents_witness :
  fst (strategy Sample.offline Sample.indexNavigation Sample.installed)
    = Rejected (NetworkError (url Sample.indexNavigation)) /\
  (exists doc,
      fst (respond Sample.appOrigin Sample.offline Sample.indexNavigation
                   Sample.installed) = Resolved (Some doc)) /\
  fst (respond Sample.appOrigin Sample.offline Sample.appScriptGet
               Sample.installed)
    = Rejected (NetworkError (url Sample.appScriptGet)).
Proof.
  split; [reflexivity|]. split.
  - destruct (respond_falls_back_for_documents Sample.appOrigin Sample.offline
                Sample.indexNavigation Sample.installed
                (snd (strategy Sample.offline Sample.indexNavigation
                               Sample.installed))
                (NetworkError (url Sample.indexNavigation)) eq_refl)
      as ([_ H] & _); [reflexivity|].
    apply H. vm_compute. eauto.
  - destruct (respond_falls_back_for_documents Sample.appOrigin Sample.offline
                Sample.appScriptGet Sample.installed
                (snd (strategy Sample.offline Sample.appScriptGet
                               Sample.installed))
                (NetworkError (url Sample.appScriptGet)) eq_refl)
      as (_ & H & _).
    apply H. reflexivity.
Defined.

End Interception.

(* ===================================================================== *)
(** ** What the fetch listener of the full worker leaves behind           *)
(* ===================================================================== *)

Module FetchListener.

Import OfflineAI Classification Storage Activation Installation Strategies.

Lemma keys_open (cs : CacheStorage) (n m : string) :
  In n (keys cs) -> In n (keys (openCache cs m)).
Proof.
  unfold openCache. destruct (lookupCache cs m); [auto|].
  unfold keys. rewrite map_app. intros H. apply in_or_app. left. exact H.
Qed.


Lemma lookupCache_putIn_other (cs : CacheStorage) (n k m : string) (r : Response) :
  m <> n -> lookupCache (putIn cs n k r) m = lookupCache cs m.
Proof.
  intros Hne. rewrite lookupCache_putIn.
  destruct (String.eqb_spec m n); [contradiction | reflexivity].
Qed.

(** The three shapes of the storage after a strategy has run: as it
    was, with the runtime generation opened, or opened and given the ok
    response of the network under the request. *)
Lemma strategy_effect (net : Network) (request : Request) (w : Worker) :
  (caches (snd (strategy net request w)) = caches w \/
   caches (snd (strategy net request w)) = openCache (caches w) CACHE_NAME \/
   exists r, net (url request) = Some r /\ ok r = true /\
             caches (snd (strategy net request w)) =
               putIn (openCache (caches w) CACHE_NAME) CACHE_NAME (url request) r) /\
  console (snd (strategy net request w)) = console w /\
  skippedWaiting (snd (strategy net request w)) = skippedWaiting w /\
  claimedClients (snd (strategy net request w)) = claimedClients w.
Proof.
  unfold strategy. case_ifs;
    rewrite ?networkFirst_run, ?cacheFirst_run, ?staleWhileRevalidate_run;
    destruct (net (url request)) as [r|] eqn:Hnet;
    try destruct (ok r) eqn:Hok;
    try destruct (matchIn (caches w) CACHE_NAME (url request));
    try destruct (matchAny (caches w) (url request));
    simpl; repeat split; eauto 7.
Qed.

Lemma onFetch_effect (origin : string) (net : Network) (request : Request)
  (w : Worker) :
  (caches (snd (onFetch origin net request w)) = caches w \/
   caches (snd (onFetch origin net request w)) = openCache (caches w) CACHE_NAME \/
   exists r, net (url request) = Some r /\ ok r = true /\
             caches (snd (onFetch origin net request w)) =
               putIn (openCache (caches w) CACHE_NAME) CACHE_NAME (url request) r) /\
  skippedWaiting (snd (onFetch origin net request w)) = skippedWaiting w /\
  claimedClients (snd (onFetch origin net request w)) = claimedClients w.
Proof.
  unfold onFetch. destruct (skips request); [simpl; auto|].
  destruct (strategy_effect net request w) as (Hcs & _ & Hskip & Hclaim).
  unfold respond, tryCatch, mbind, async_bind, consoleError, cachesMatch.
  destruct (strategy net request w) as [[r|e] w1]; simpl in *; [auto|].
  destruct (acceptsHtml request); simpl; auto.
Qed.


Lemma strategy_cacheFirst (net : Network) (request : Request) :
  JsString.includes (pathname (target request)) "/api/" = false ->
  strategy net request = cacheFirst net request.
Proof.
  intros Hapi. unfold strategy. rewrite Hapi, isCoreAsset_always. reflexivity.
Qed.

Lemma onFetch_responds (origin : string) (net : Network) (request : Request)
  (w : Worker) :
  skips request = false ->
  fst (onFetch origin net request w) =
  RespondWith
    match strategy net request w with
    | (Resolved r, _) => Resolved (Some r)
    | (Rejected e, w') =>
        if acceptsHtml request
        then Resolved (matchAny (caches w') (resolve origin "/index.html"))
        else Rejected e
    end.
Proof.
  intros Hskip. unfold onFetch. rewrite Hskip.
  unfold respond, tryCatch, mbind, async_bind, consoleError, cachesMatch.
  destruct (strategy net request w) as [[r|e] w1]; simpl; [reflexivity|].
  destruct (acceptsHtml request); reflexivity.
Qed.




End FetchListener.

(* ===================================================================== *)
(** ** Installation and activation, composed                              *)
(* ===================================================================== *)

Module Deployment.

Import OfflineAI Classification Storage Activation Installation Strategies.
Import FetchListener.

Lemma lookupCache_putAll_other (cache n : string)
  (fetched : list (string * Response)) (cs : CacheStorage) :
  n <> cache -> lookupCache (putAll cs cache fetched) n = lookupCache cs n.
Proof.
  intros Hne. revert cs. unfold putAll.
  induction fetched as [|[k r] rest IH]; intros cs; simpl; [reflexivity|].
  rewrite IH. apply lookupCache_putIn_other, Hne.
Qed.

Lemma keys_putAll (cache : string) (fetched : list (string * Response))
  (cs : CacheStorage) :
  keys (putAll cs cache fetched) = keys cs.
Proof.
  revert cs. unfold putAll.
  induction fetched as [|[k r] rest IH]; intros cs; simpl; [reflexivity|].
  rewrite IH. apply keys_putIn.
Qed.

Lemma fetchAll_keys (origin : string) (net : Network) (assets : list string)
  (fetched : list (string * Response)) :
  fetchAll origin net assets = inr fetched ->
  map fst fetched = map (resolve origin) assets /\
  Forall (fun entry => ok (snd entry) = true) fetched.
Proof.
  revert fetched. induction assets as [|asset rest IH]; simpl; intros fetched H.
  - injection H as <-. split; [reflexivity | constructor].
  - destruct (net (resolve origin asset)) as [r|]; [|discriminate].
    destruct (ok r) eqn:Hok; [|discriminate].
    destruct (fetchAll origin net rest) as [e|tail]; [discriminate|].
    injection H as <-. destruct (IH tail eq_refl) as [IH1 IH2]. simpl.
    split; [rewrite IH1; reflexivity | constructor; assumption].
Qed.

(** The storage after the install listener, resolved or rejected. *)
Lemma installWith_caches (origin : string) (net : Network)
  (assets : list string) (w : Worker) :
  caches (snd (installWith origin assets net w)) =
  match fetchAll origin net assets with
  | inr fetched => putAll (openCache (caches w) CORE_CACHE) CORE_CACHE fetched
  | inl _ => openCache (caches w) CORE_CACHE
  end.
Proof.
  pose proof (installWith_run origin net assets w) as Hrun.
  destruct (fetchAll origin net assets).
  - rewrite Hrun. reflexivity.
  - apply Hrun.
Qed.

Lemma installWith_other (origin : string) (net : Network)
  (assets : list string) (w : Worker) (n : string) :
  n <> CORE_CACHE ->
  lookupCache (caches (snd (installWith origin assets net w))) n =
  lookupCache (caches w) n.
Proof.
  intros Hne. rewrite installWith_caches.
  destruct (fetchAll origin net assets);
    rewrite ?lookupCache_putAll_other by assumption;
    apply lookupCache_open_other; congruence.
Qed.


(** X4.  What the install listener precaches is not what the cache-first
    branch reads.  After a resolved install the core generation holds
    every manifest URL; yet a GET for such a URL that does not accept
    HTML, made while the network is down and the runtime generation has
    no entry for it, is rejected with the network error: cache first looks
    in the runtime generation only. *)
Theorem precache_is_not_read_by_cache_first
  (origin : string) (net down : Network) (assets : list string) (w : Worker)
  (request : Request) (a : string) :
  fst (installWith origin assets net w) = Resolved tt ->
  In a assets -> url request = resolve origin a ->
  skips request = false ->
  JsString.includes (pathname (target request)) "/api/" = false ->
  acceptsHtml request = false ->
  matchIn (caches w) CACHE_NAME (url request) = None ->
  down (url request) = None ->
  (exists r, matchIn (caches (snd (installWith origin assets net w)))
                     CORE_CACHE (url request) = Some r) /\
  fst (onFetch origin down request (snd (installWith origin assets net w))) =
    RespondWith (Rejected (NetworkError (url request))).
Proof.
  intros Hres Hin Hurl Hskip Hapi Hhtml Hmiss Hdown. split.
  - destruct (installWith_matches origin net assets w a Hres Hin) as (r & _ & Hr).
    exists r. rewrite Hurl. exact Hr.
  - rewrite onFetch_responds by assumption.
    rewrite strategy_cacheFirst, cacheFirst_run by assumption.
    unfold matchIn at 1. rewrite installWith_other by discriminate.
    fold (matchIn (caches w) CACHE_NAME (url request)).
    rewrite Hmiss, Hdown, Hhtml. reflexivity.
Qed.

Lemma precache_is_not_read_by_cache_first_witness :
  fst (install Sample.appOrigin Sample.online Sample.fresh) = Resolved tt /\
  matchIn (caches Sample.installed) CORE_CACHE (url Sample.appScriptGet)
    = Some (Sample.page ("content of " +:+ url Sample.appScriptGet)) /\
  fst (onFetch Sample.appOrigin Sample.offline Sample.appScriptGet Sample.installed)
    = RespondWith (Rejected (NetworkError (url Sample.appScriptGet))).
Proof.
  split; [reflexivity|]. split; [reflexivity|].
  apply (precache_is_not_read_by_cache_first Sample.appOrigin Sample.online
           Sample.offline CORE_ASSETS Sample.fresh Sample.appScriptGet "/app.js");
    try reflexivity.
  simpl. auto.
Defined.

Lemma matchIn_filter_kept (cs : CacheStorage) (n key : string) :
  kept n = true ->
  matchIn (List.filter (fun entry => kept (fst entry)) cs) n key = matchIn cs n key.
Proof.
  intros Hk. unfold matchIn. rewrite lookupCache_filter, Hk. reflexivity.
Qed.

(** X5.  A deployment that reaches activation serves its manifest: the
    core generation, after install and activate, answers every manifest
    URL with the ok response the network gave for it, [caches.match]
    finds an entry for each, only generations of the registry are left,
    and both [skipWaiting] and [clients.claim] have been called. *)
Theorem deployment_keeps_the_manifest
  (origin : string) (net : Network) (assets : list string) (w : Worker) :
  fst (deployWith origin assets net w) = Activated ->
  (forall a, In a assets ->
     exists r, net (resolve origin a) = Some r /\ ok r = true /\
       matchIn (caches (snd (deployWith origin assets net w)))
               CORE_CACHE (resolve origin a) = Some r /\
       is_Some (matchAny (caches (snd (deployWith origin assets net w)))
                         (resolve origin a))) /\
  (forall n, In n (keys (caches (snd (deployWith origin assets net w)))) ->
             In n registry) /\
  skippedWaiting (snd (deployWith origin assets net w)) = true /\
  claimedClients (snd (deployWith origin assets net w)) = true.
Proof.
  unfold deployWith.
  pose proof (installWith_matches origin net assets w) as Hm.
  pose proof (installWith_run origin net assets w) as Hrun.
  destruct (fetchAll origin net assets) as [e|fetched] eqn:Hfetch.
  { rewrite Hrun. discriminate. }
  destruct Hrun as (_ & _ & Hskip).
  destruct (fetchAll_fetched origin net assets fetched Hfetch) as [Hnet Hall].
  destruct (fetchAll_keys origin net assets fetched Hfetch) as [_ Hoks].
  destruct (installWith origin assets net w) as [[[]|e] w1]; [|discriminate].
  intros _. simpl in *.
  destruct (activate_run w1) as (_ & Hcs & Hclaim).
  split; [|split; [|split]].
  - intros a Hin. destruct (Hm a eq_refl Hin) as (r & Hr & Hcore).
    destruct (Hall a Hin) as (r' & Hin').
    assert (r' = r) as -> by (apply Hnet in Hin'; congruence).
    assert (Hkept : matchIn (caches (snd (activate w1))) CORE_CACHE
                            (resolve origin a) = Some r)
      by (rewrite Hcs, matchIn_filter_kept; [exact Hcore | reflexivity]).
    exists r. split; [exact Hr|]. split; [|split; [exact Hkept|]].
    + rewrite List.Forall_forall in Hoks. exact (Hoks _ Hin').
    + unfold matchIn in Hkept. revert Hkept.
      generalize (caches (snd (activate w1))). intros cs.
      induction cs as [|[n c] cs IH]; simpl; [discriminate|].
      destruct (String.eqb n CORE_CACHE).
      * intros ->. eauto.
      * intros H. destruct (c !! resolve origin a); [eauto | exact (IH H)].
  - intros n Hn. rewrite Hcs in Hn. apply keys_filter_kept in Hn as [_ Hn].
    apply kept_registry, Hn.
  - destruct (forEach_deleteIfOld (keys (caches w1)) w1) as (Hres & _ & Hs & _).
    unfold activate, mbind, async_bind, cachesKeys.
    destruct (forEach deleteIfOld (keys (caches w1)) w1) as [res w2].
    simpl in *. subst res. simpl. congruence.
  - exact Hclaim.
Qed.

Lemma deployment_keeps_the_manifest_witness :
  fst (deployWith Sample.appOrigin CORE_ASSETS Sample.online Sample.upgraded)
    = Activated /\
  keys (caches (snd (deployWith Sample.appOrigin CORE_ASSETS Sample.online
                                Sample.upgraded)))
    = [CORE_CACHE; CACHE_NAME] /\
  is_Some (matchAny (caches (snd (deployWith Sample.appOrigin CORE_ASSETS
                                             Sample.online Sample.upgraded)))
                    (resolve Sample.appOrigin "/manifest.json")).
Proof.
  split; [reflexivity|]. split; [reflexivity|].
  destruct (deployment_keeps_the_manifest Sample.appOrigin Sample.online
              CORE_ASSETS Sample.upgraded eq_refl) as (H & _).
  destruct (H "/manifest.json") as (r & _ & _ & _ & Hr); [simpl; auto|].
  exact Hr.
Defined.

Lemma filter_sublist {A} (f : A -> bool) (l : list A) :
  sublist (List.filter f l) l.
Proof.
  induction l as [|x l IH]; simpl; [constructor|].
  destruct (f x); constructor; exact IH.
Qed.

(** X6.  Activation is idempotent, and it is the identity on a storage
    that holds generations of the registry only: a second activation
    changes nothing, and the generations it keeps stay in their creation
    order (the storage afterwards is a sublist of the storage before). *)
Theorem activation_is_idempotent (w : Worker) :
  caches (snd (activate (snd (activate w)))) = caches (snd (activate w)) /\
  ((forall n, In n (keys (caches w)) -> In n registry) ->
   caches (snd (activate w)) = caches w) /\
  sublist (caches (snd (activate w))) (caches w).
Proof.
  destruct (activate_run w) as (_ & Hcs & _).
  destruct (activate_run (snd (activate w))) as (_ & Hcs2 & _).
  split; [|split].
  - rewrite Hcs2, Hcs, filter_filter. apply filter_ext.
    intros entry. apply andb_diag.
  - intros Hall. rewrite Hcs. apply filter_all. intros [n c] Hin. simpl.
    apply kept_registry, Hall. unfold keys. apply in_map_iff.
    exists (n, c). auto.
  - rewrite Hcs. apply filter_sublist.
Qed.

Lemma activation_is_idempotent_witness :
  caches (snd (activate Sample.installed)) = caches Sample.installed.
Proof.
  destruct (activation_is_idempotent Sample.installed) as (_ & H & _).
  apply H. intros n. simpl. unfold registry. simpl. intuition.
Defined.

End Deployment.

(* ===================================================================== *)
(** ** Maintenance: update check, messages, and what every event keeps    *)
(* ===================================================================== *)

Module Maintenance.

Import OfflineAI Classification Storage Activation Installation Strategies.
Import FetchListener Deployment.

Section UpdateCheck.

Variable origin : string.
Variable net : Network.






Lemma checkForUpdatesWith_run (assets : list string) (w : Worker) :
  fst (checkForUpdatesWith origin assets net w) = Resolved tt /\
  caches (snd (checkForUpdatesWith origin assets net w)) =
    match fetchEach origin net assets with
    | inr fetched => putOk (openCache (caches w) CORE_CACHE) CORE_CACHE fetched
    | inl _ => openCache (caches w) CORE_CACHE
    end /\
  skippedWaiting (snd (checkForUpdatesWith origin assets net w)) = skippedWaiting w /\
  claimedClients (snd (checkForUpdatesWith origin assets net w)) = claimedClients w.
Proof.
  unfold checkForUpdatesWith, tryCatch, mbind, async_bind, cachesOpen,
    promiseAllFetch, putEachOk.
  destruct (fetchEach origin net assets); simpl; auto.
Qed.


End UpdateCheck.


Lemma onMessage_caches (origin : string) (net : Network)
  (data : option Message) (w : Worker) :
  fst (onMessage origin net data w) = Resolved tt /\
  (caches (snd (onMessage origin net data w)) = caches w \/
   exists key r,
     caches (snd (onMessage origin net data w)) =
       putIn (openCache (caches w) (name MODEL_CACHE_CONFIG))
             (name MODEL_CACHE_CONFIG) key r) /\
  skippedWaiting (snd (onMessage origin net data w)) = skippedWaiting w /\
  claimedClients (snd (onMessage origin net data w)) = claimedClients w.
Proof.
  unfold onMessage. destruct data as [m|]; [|simpl; auto].
  destruct (String.eqb (type m) "CACHE_MODEL"); [|simpl; auto].
  unfold cacheModel, tryCatch, mbind, async_bind, fetch.
  destruct (net (resolve origin (modelUrl m))) as [r|]; simpl.
  - repeat split. right. exists (resolve origin (modelUrl m)), r. reflexivity.
  - auto.
Qed.

(** X8.  The message listener never rejects, never calls [skipWaiting]
    or [clients.claim], and leaves every generation other than the model
    cache as it was; a message that carries no data, or whose type is not
    [CACHE_MODEL] (the page's [SKIP_WAITING] among them), leaves the whole
    worker as it was. *)
Theorem message_listener_touches_only_the_model_cache
  (origin : string) (net : Network) (data : option Message) (w : Worker) :
  fst (onMessage origin net data w) = Resolved tt /\
  skippedWaiting (snd (onMessage origin net data w)) = skippedWaiting w /\
  claimedClients (snd (onMessage origin net data w)) = claimedClients w /\
  (forall n, n <> name MODEL_CACHE_CONFIG ->
     lookupCache (caches (snd (onMessage origin net data w))) n =
     lookupCache (caches w) n) /\
  (data = None -> snd (onMessage origin net data w) = w) /\
  (forall m, data = Some m -> type m <> "CACHE_MODEL" ->
     snd (onMessage origin net data w) = w).
Proof.
  destruct (onMessage_caches origin net data w) as (Hres & Hcs & Hskip & Hclaim).
  repeat (split; [assumption|]). split; [|split].
  - intros n Hn. destruct Hcs as [->|(key & r & ->)]; [reflexivity|].
    rewrite lookupCache_putIn_other by assumption.
    apply lookupCache_open_other. congruence.
  - intros ->. reflexivity.
  - intros m -> Hm. simpl.
    destruct (String.eqb_spec (type m) "CACHE_MODEL"); [contradiction|].
    reflexivity.
Qed.

Lemma message_listener_touches_only_the_model_cache_witness :
  snd (onMessage Sample.appOrigin Sample.online
                 (Some (mkMessage "SKIP_WAITING" "")) Sample.fresh)
    = Sample.fresh.
Proof.
  destruct (message_listener_touches_only_the_model_cache Sample.appOrigin
              Sample.online (Some (mkMessage "SKIP_WAITING" "")) Sample.fresh)
    as (_ & _ & _ & _ & _ & H).
  apply (H (mkMessage "SKIP_WAITING" "")); [reflexivity | discriminate].
Defined.

(* --------------------------------------------------------------------- *)
(** *** An invariant of the event loop                                    *)
(* --------------------------------------------------------------------- *)

Lemma onlyOk_open (cs : CacheStorage) (m : string) :
  holdsOnlyOk cs -> holdsOnlyOk (openCache cs m).
Proof.
  intros H n key r Hn. destruct (String.eqb_spec m n) as [->|Hne].
  - rewrite matchIn_open. apply H, Hn.
  - unfold matchIn. rewrite lookupCache_open_other by assumption.
    apply (H n key r Hn).
Qed.

Lemma onlyOk_putIn (cs : CacheStorage) (m k : string) (r : Response) :
  holdsOnlyOk cs -> (In m registry -> ok r = true) ->
  holdsOnlyOk (putIn cs m k r).
Proof.
  intros H Hr n key r' Hn. unfold matchIn. rewrite lookupCache_putIn.
  destruct (String.eqb_spec n m) as [->|Hne]; [|apply (H n key r' Hn)].
  pose proof (H m key r' Hn) as Hold. unfold matchIn in Hold.
  destruct (lookupCache cs m) as [c|]; simpl; [|discriminate].
  destruct (String.eqb_spec k key) as [->|Hk].
  - rewrite lookup_insert_eq. intros [= <-]. apply Hr, Hn.
  - rewrite lookup_insert_ne by assumption. exact Hold.
Qed.

Lemma onlyOk_filter (keep : string -> bool) (cs : CacheStorage) :
  holdsOnlyOk cs ->
  holdsOnlyOk (List.filter (fun entry => keep (fst entry)) cs).
Proof.
  intros H n key r Hn. unfold matchIn. rewrite lookupCache_filter.
  destruct (keep n); [apply (H n key r Hn) | discriminate].
Qed.

Lemma onlyOk_putAll (cache : string) (fetched : list (string * Response))
  (cs : CacheStorage) :
  Forall (fun entry => ok (snd entry) = true) fetched ->
  holdsOnlyOk cs -> holdsOnlyOk (putAll cs cache fetched).
Proof.
  intros Hok. revert cs. unfold putAll.
  induction Hok as [|[k r] rest Hr _ IH]; intros cs H; simpl; [exact H|].
  apply IH, onlyOk_putIn; auto.
Qed.

Lemma onlyOk_putOk (cache : string) (fetched : list (string * Response))
  (cs : CacheStorage) :
  holdsOnlyOk cs -> holdsOnlyOk (putOk cs cache fetched).
Proof.
  revert cs. unfold putOk.
  induction fetched as [|[k r] rest IH]; intros cs H; simpl; [exact H|].
  apply IH. destruct (ok r) eqn:Hok; [apply onlyOk_putIn; auto | exact H].
Qed.

Lemma dispatch_keeps_only_ok (origin : string) (ev : Event) (w : Worker) :
  holdsOnlyOk (caches w) -> holdsOnlyOk (caches (dispatch origin ev w)).
Proof.
  intros H. destruct ev as [net| |net request|net data|tag|net tag]; simpl.
  - unfold install. rewrite installWith_caches.
    destruct (fetchAll origin net CORE_ASSETS) as [e|fetched] eqn:Hfetch.
    + apply onlyOk_open, H.
    + apply onlyOk_putAll; [|apply onlyOk_open, H].
      apply (fetchAll_keys origin net CORE_ASSETS fetched Hfetch).
  - destruct (activate_run w) as (_ & -> & _). apply onlyOk_filter, H.
  - destruct (onFetch_effect origin net request w)
      as ([->|[->|(r & _ & Hok & ->)]] & _).
    + exact H.
    + apply onlyOk_open, H.
    + apply onlyOk_putIn; [apply onlyOk_open, H | auto].
  - destruct (onMessage_caches origin net data w)
      as (_ & [->|(key & r & ->)] & _); [exact H|].
    apply onlyOk_putIn; [apply onlyOk_open, H|].
    unfold registry. simpl. intros [Hn|[Hn|[]]]; discriminate.
  - unfold onSync, syncModels. destruct (String.eqb tag "sync-models"); exact H.
  - unfold onPeriodicSync, checkForUpdates.
    destruct (String.eqb tag "update-check"); [|exact H].
    destruct (checkForUpdatesWith_run origin net CORE_ASSETS w) as (_ & -> & _).
    destruct (fetchEach origin net CORE_ASSETS).
    + apply onlyOk_open, H.
    + apply onlyOk_putOk, onlyOk_open, H.
Qed.

(** X9.  Through any sequence of install, activate, fetch, message, sync
    and periodic-sync events, whatever the network answers during each,
    the generations of the registry (the runtime and the core cache) hold
    ok responses only: the worker never stores an error response where the
    strategies read. *)
Theorem registry_generations_hold_only_ok
  (origin : string) (events : list Event) (w : Worker) :
  holdsOnlyOk (caches w) -> holdsOnlyOk (caches (run origin events w)).
Proof.
  revert w. unfold run.
  induction events as [|ev events IH]; intros w H; simpl; [exact H|].
  apply IH, dispatch_keeps_only_ok, H.
Qed.

Lemma registry_generations_hold_only_ok_witness :
  holdsOnlyOk (caches Sample.fresh) /\
  holdsOnlyOk
    (caches (run Sample.appOrigin
               [ InstallEvent Sample.online;
                 ActivateEvent;
                 FetchEvent Sample.missing Sample.appScriptGet;
                 FetchEvent Sample.online Sample.apiStatusGet;
                 MessageEvent Sample.missing
                   (Some (mkMessage "CACHE_MODEL" Sample.modelWeights));
                 PeriodicSyncEvent Sample.missing "update-check" ]
               Sample.fresh)).
Proof.
  assert (H : holdsOnlyOk (caches Sample.fresh))
    by (intros n key r _; discriminate).
  split; [exact H|].
  apply (registry_generations_hold_only_ok Sample.appOrigin _ Sample.fresh H).
Defined.

(* --------------------------------------------------------------------- *)
(** *** Only activation removes                                           *)
(* --------------------------------------------------------------------- *)

Lemma matchIn_open_any (cs : CacheStorage) (m n key : string) :
  matchIn (openCache cs m) n key = matchIn cs n key.
Proof.
  destruct (String.eqb_spec m n) as [->|Hne]; [apply matchIn_open|].
  unfold matchIn. rewrite lookupCache_open_other by assumption. reflexivity.
Qed.

Lemma matchIn_putIn_some (cs : CacheStorage) (m k n key : string) (r : Response) :
  is_Some (matchIn cs n key) -> is_Some (matchIn (putIn cs m k r) n key).
Proof.
  unfold matchIn. rewrite lookupCache_putIn.
  destruct (String.eqb n m); [|auto].
  destruct (lookupCache cs n) as [c|]; simpl; [|auto].
  destruct (String.eqb_spec k key) as [->|Hne].
  - rewrite lookup_insert_eq. eauto.
  - rewrite lookup_insert_ne by assumption. auto.
Qed.

Lemma matchIn_putAll_some (cache n key : string)
  (fetched : list (string * Response)) (cs : CacheStorage) :
  is_Some (matchIn cs n key) -> is_Some (matchIn (putAll cs cache fetched) n key).
Proof.
  revert cs. unfold putAll.
  induction fetched as [|[k r] rest IH]; intros cs H; simpl; [exact H|].
  apply IH, matchIn_putIn_some, H.
Qed.

Lemma matchIn_putOk_some (cache n key : string)
  (fetched : list (string * Response)) (cs : CacheStorage) :
  is_Some (matchIn cs n key) -> is_Some (matchIn (putOk cs cache fetched) n key).
Proof.
  revert cs. unfold putOk.
  induction fetched as [|[k r] rest IH]; intros cs H; simpl; [exact H|].
  apply IH. destruct (ok r); [apply matchIn_putIn_some, H | exact H].
Qed.

Lemma keys_putOk (cache : string) (fetched : list (string * Response))
  (cs : CacheStorage) :
  keys (putOk cs cache fetched) = keys cs.
Proof.
  revert cs. unfold putOk.
  induction fetched as [|[k r] rest IH]; intros cs; simpl; [reflexivity|].
  rewrite IH. destruct (ok r); [apply keys_putIn | reflexivity].
Qed.

(** X17.  Activation is the only event that removes anything.  Any
    other event (install, fetch, message, sync, periodic sync), whatever
    the network answers, keeps every generation the storage held and keeps
    an entry under every key that had one: responses are overwritten, never
    evicted. *)
Theorem only_activation_removes (origin : string) (ev : Event) (w : Worker) :
  ev <> ActivateEvent ->
  (forall n, In n (keys (caches w)) ->
             In n (keys (caches (dispatch origin ev w)))) /\
  (forall n key, is_Some (matchIn (caches w) n key) ->
                 is_Some (matchIn (caches (dispatch origin ev w)) n key)).
Proof.
  intros Hev.
  destruct ev as [net| |net request|net data|tag|net tag]; simpl;
    [ | contradiction | | | | ].
  - unfold install. rewrite installWith_caches.
    destruct (fetchAll origin net CORE_ASSETS); split; intros n.
    + apply keys_open.
    + intros key. rewrite matchIn_open_any. auto.
    + rewrite keys_putAll. apply keys_open.
    + intros key H. apply matchIn_putAll_some. rewrite matchIn_open_any. exact H.
  - destruct (onFetch_effect origin net request w)
      as ([->|[->|(r & _ & _ & ->)]] & _); split; intros n; auto.
    + apply keys_open.
    + intros key. rewrite matchIn_open_any. auto.
    + rewrite keys_putIn. apply keys_open.
    + intros key H. apply matchIn_putIn_some. rewrite matchIn_open_any. exact H.
  - destruct (onMessage_caches origin net data w)
      as (_ & [->|(k & r & ->)] & _); split; intros n; auto.
    + rewrite keys_putIn. apply keys_open.
    + intros key H. apply matchIn_putIn_some. rewrite matchIn_open_any. exact H.
  - unfold onSync, syncModels. destruct (String.eqb tag "sync-models"); auto.
  - unfold onPeriodicSync, checkForUpdates.
    destruct (String.eqb tag "update-check"); [|auto].
    destruct (checkForUpdatesWith_run origin net CORE_ASSETS w) as (_ & -> & _).
    destruct (fetchEach origin net CORE_ASSETS); split; intros n.
    + apply keys_open.
    + intros key. rewrite matchIn_open_any. auto.
    + rewrite keys_putOk. apply keys_open.
    + intros key H. apply matchIn_putOk_some. rewrite matchIn_open_any. exact H.
Qed.

Lemma only_activation_removes_witness :
  In "offline-ai-v2"
     (keys (caches (dispatch Sample.appOrigin (InstallEvent Sample.online)
                             Sample.upgraded))) /\
  ~ In "offline-ai-v2"
       (keys (caches (dispatch Sample.appOrigin ActivateEvent Sample.upgraded))).
Proof.
  split.
  - apply (only_activation_removes Sample.appOrigin (InstallEvent Sample.online)
             Sample.upgraded ltac:(discriminate)).
    simpl. auto.
  - vm_compute. intros [H|[H|[]]]; discriminate.
Defined.

End Maintenance.

(* ===================================================================== *)
(** ** The app-shell workers                                              *)
(* ===================================================================== *)

Module AppShellFacts.

Import OfflineAI Storage Installation Strategies FetchListener Deployment.
Import AppShell.

Lemma matchAny_putIn_other_key (cs : CacheStorage) (n k key : string)
  (r : Response) :
  key <> k -> matchAny (putIn cs n k r) key = matchAny cs key.
Proof.
  intros Hne. induction cs as [|[n' c'] cs IH]; simpl; [reflexivity|].
  destruct (String.eqb n' n); simpl; rewrite IH; [|reflexivity].
  rewrite lookup_insert_ne by congruence. reflexivity.
Qed.

(** Writing under a key the response [caches.match] already finds for
    it does not change what [caches.match] finds. *)
Lemma matchAny_putIn_same_value (cs : CacheStorage) (n key : string)
  (r : Response) :
  matchAny cs key = Some r -> matchAny (putIn cs n key r) key = Some r.
Proof.
  induction cs as [|[n' c'] cs IH]; simpl; [discriminate|].
  destruct (String.eqb n' n); simpl.
  - rewrite lookup_insert_eq. reflexivity.
  - destruct (c' !! key); [auto | exact IH].
Qed.

Lemma matchAny_putAll (net : Network) (n key : string) (r : Response)
  (fetched : list (string * Response)) (cs : CacheStorage) :
  In n (keys cs) ->
  (forall k r', In (k, r') fetched -> net k = Some r') ->
  net key = Some r ->
  matchAny cs key = None /\ In key (map fst fetched) \/ matchAny cs key = Some r ->
  matchAny (putAll cs n fetched) key = Some r.
Proof.
  intros Hn Hnet Hr. revert cs Hn. unfold putAll.
  induction fetched as [|[k r'] rest IH]; intros cs Hn Hcase; simpl.
  - destruct Hcase as [[_ []]|H]. exact H.
  - assert (Hrest : forall k0 r0, In (k0, r0) rest -> net k0 = Some r0)
      by (intros k0 r0 Hin; apply Hnet; right; exact Hin).
    apply (IH Hrest); [rewrite keys_putIn; exact Hn|].
    destruct (String.eqb_spec k key) as [->|Hne].
    + assert (r' = r) as ->
        by (pose proof (Hnet key r' (or_introl eq_refl)); congruence).
      right. destruct Hcase as [[Hnone _]|Hsome].
      * apply matchAny_putIn_fresh; assumption.
      * apply matchAny_putIn_same_value, Hsome.
    + rewrite matchAny_putIn_other_key by congruence.
      destruct Hcase as [[Hnone [Heq|Hin]]|Hsome]; simpl in *; auto.
      contradiction.
Qed.

Lemma putAll_head (n0 n : string) (c0 : Cache) (rest : CacheStorage)
  (fetched : list (string * Response)) :
  n0 <> n ->
  putAll ((n0, c0) :: rest) n fetched = (n0, c0) :: putAll rest n fetched.
Proof.
  intros Hne. revert rest. unfold putAll.
  induction fetched as [|[k r] more IH]; intros rest; simpl; [reflexivity|].
  destruct (String.eqb_spec n0 n); [contradiction|]. apply IH.
Qed.

Lemma openCache_head (n0 n : string) (c0 : Cache) (rest : CacheStorage) :
  n0 <> n -> openCache ((n0, c0) :: rest) n = (n0, c0) :: openCache rest n.
Proof.
  intros Hne. unfold openCache. simpl.
  destruct (String.eqb_spec n0 n); [contradiction|].
  destruct (lookupCache rest n); reflexivity.
Qed.


Section Shell.

Variable base : string.
Variable net : Network.

Lemma fetchShell_fetched (assets : list string) (fetched : list (string * Response)) :
  fetchShell base net assets = inr fetched ->
  (forall k r, In (k, r) fetched -> net k = Some r) /\
  (forall a, In a assets ->
     exists r, In (resolveRelative base a, r) fetched /\ ok r = true).
Proof.
  revert fetched. induction assets as [|asset rest IH]; simpl; intros fetched H.
  - injection H as <-. split; [intros k r [] | intros a []].
  - destruct (net (resolveRelative base asset)) as [r|] eqn:Hnet; [|discriminate].
    destruct (ok r) eqn:Hok; [|discriminate].
    destruct (fetchShell base net rest) as [e|tail]; [discriminate|].
    injection H as <-. destruct (IH tail eq_refl) as [IH1 IH2]. split.
    + intros k r' [[= <- <-]|Hin]; [exact Hnet | exact (IH1 k r' Hin)].
    + intros a [<-|Hin]; [exists r; split; [left; reflexivity | exact Hok]|].
      destruct (IH2 a Hin) as (r' & Hr' & Hok'). exists r'. split; [right|]; auto.
Qed.

(** The install listeners of both workers: [skipWaiting] first, then the
    cache [cacheName] is opened and filled, or only opened. *)
Lemma shell_install_run (cacheName : string) (assets : list string) (w : Worker) :
  (skipWaiting;; c ← cachesOpen cacheName; addShell base net c assets) w =
  match fetchShell base net assets with
  | inr fetched =>
      (Resolved tt,
       {| caches := putAll (openCache (caches w) cacheName) cacheName fetched;
          console := console w; skippedWaiting := true;
          claimedClients := claimedClients w |})
  | inl e =>
      (Rejected e,
       {| caches := openCache (caches w) cacheName;
          console := console w; skippedWaiting := true;
          claimedClients := claimedClients w |})
  end.
Proof.
  unfold mbind, async_bind, skipWaiting, cachesOpen, addShell. simpl.
  destruct (fetchShell base net assets); reflexivity.
Qed.

(** After a resolved install into [cacheName], that cache holds every
    asset, and [caches.match] finds either that copy or the copy an
    older generation already held. *)
Lemma shell_installed (cacheName : string) (assets : list string) (w : Worker)
  (a : string) :
  fst ((skipWaiting;; c ← cachesOpen cacheName; addShell base net c assets) w)
    = Resolved tt ->
  In a assets ->
  exists r fetched,
    net (resolveRelative base a) = Some r /\ ok r = true /\
    caches (snd ((skipWaiting;; c ← cachesOpen cacheName;
                  addShell base net c assets) w))
      = putAll (openCache (caches w) cacheName) cacheName fetched /\
    (forall k r', In (k, r') fetched -> net k = Some r') /\
    In (resolveRelative base a) (map fst fetched) /\
    matchIn (putAll (openCache (caches w) cacheName) cacheName fetched)
            cacheName (resolveRelative base a) = Some r.
Proof.
  rewrite shell_install_run. intros Hres Hin.
  destruct (fetchShell base net assets) as [e|fetched] eqn:Hfetch;
    [discriminate|].
  destruct (fetchShell_fetched assets fetched Hfetch) as [Hnet Hall].
  destruct (Hall a Hin) as (r & Hr & Hok).
  assert (Hkey : In (resolveRelative base a) (map fst fetched))
    by (apply in_map_iff; exists (resolveRelative base a, r); auto).
  exists r, fetched. repeat split; auto.
  rewrite (putAll_match net cacheName fetched _ _ (resolveRelative base a)
             (lookupCache_open_same (caches w) cacheName) Hnet).
  assert (existsb (fun entry : string * Response =>
                     String.eqb (fst entry) (resolveRelative base a)) fetched = true)
    as ->; [|exact (Hnet _ _ Hr)].
  apply existsb_exists. exists (resolveRelative base a, r).
  split; [exact Hr | apply String.eqb_refl].
Qed.

End Shell.

Lemma forEach_neurolocalDelete (l : list string) (w : Worker) :
  fst (forEach neurolocalDelete l w) = Resolved tt /\
  caches (snd (forEach neurolocalDelete l w)) =
    List.filter
      (fun entry => String.eqb (fst entry) Neurolocal.CACHE_NAME ||
                    negb (existsb (String.eqb (fst entry)) l))
      (caches w) /\
  claimedClients (snd (forEach neurolocalDelete l w)) = claimedClients w.
Proof.
  revert w. induction l as [|key l IH]; intros w.
  - simpl. repeat split. symmetry. apply filter_all.
    intros x _. apply orb_true_r.
  - cbn [forEach]. unfold mbind, async_bind.
    unfold neurolocalDelete at 1 3 5.
    destruct (String.eqb key Neurolocal.CACHE_NAME) eqn:Hkey; simpl.
    + destruct (IH w) as (IHres & IHcs & IHclaim).
      repeat split; [exact IHres | | exact IHclaim].
      rewrite IHcs. apply filter_ext. intros [n c]. simpl.
      destruct (String.eqb_spec n key) as [->|Hne]; [|reflexivity].
      rewrite Hkey. reflexivity.
    + destruct (IH (withCaches (deleteCache (caches w) key) w))
        as (IHres & IHcs & IHclaim).
      repeat split; [exact IHres | | exact IHclaim].
      rewrite IHcs. simpl. unfold deleteCache. rewrite filter_filter.
      apply filter_ext. intros [n c]. simpl.
      destruct (String.eqb_spec n key) as [->|Hne]; simpl; [|reflexivity].
      rewrite Hkey. reflexivity.
Qed.

Lemma neurolocalActivate_run (w : Worker) :
  fst (neurolocalActivate w) = Resolved tt /\
  caches (snd (neurolocalActivate w)) =
    List.filter (fun entry => String.eqb (fst entry) Neurolocal.CACHE_NAME)
                (caches w) /\
  claimedClients (snd (neurolocalActivate w)) = true.
Proof.
  unfold neurolocalActivate, mbind, async_bind, clientsClaim, cachesKeys.
  simpl.
  match goal with
  | |- context [forEach neurolocalDelete ?l ?w1] =>
      destruct (forEach_neurolocalDelete l w1) as (Hres & Hcs & Hclaim);
      destruct (forEach neurolocalDelete l w1) as [res w2]
  end.
  simpl in *. subst res. split; [reflexivity|]. split; [|exact Hclaim].
  rewrite Hcs. apply filter_ext_in. intros [n c] Hin. simpl.
  assert (existsb (String.eqb n) (keys (caches w)) = true) as ->.
  { apply existsb_exists. exists n. split; [|apply String.eqb_refl].
    unfold keys. apply in_map_iff. exists (n, c). auto. }
  apply orb_false_r.
Qed.

(** X10.  After the activate listener of the neurolocal worker, the
    storage holds no generation but [neurolocal-v2]: every other name is
    gone from [caches.keys()], whoever created it, the worker's own cache
    keeps its contents, and the clients are claimed. *)
Theorem neurolocal_activation_keeps_only_its_cache (w : Worker) :
  fst (neurolocalActivate w) = Resolved tt /\
  (forall n, In n (keys (caches (snd (neurolocalActivate w)))) <->
             In n (keys (caches w)) /\ n = Neurolocal.CACHE_NAME) /\
  lookupCache (caches (snd (neurolocalActivate w))) Neurolocal.CACHE_NAME =
    lookupCache (caches w) Neurolocal.CACHE_NAME /\
  (forall n, n <> Neurolocal.CACHE_NAME ->
     lookupCache (caches (snd (neurolocalActivate w))) n = None) /\
  claimedClients (snd (neurolocalActivate w)) = true.
Proof.
  destruct (neurolocalActivate_run w) as (Hres & Hcs & Hclaim).
  split; [exact Hres|]. rewrite Hcs.
  split; [|split; [|split; [|exact Hclaim]]].
  - intros n. unfold keys. rewrite !in_map_iff. split.
    + intros ([n' c] & <- & Hin). apply filter_In in Hin as [Hin Hk].
      simpl in *. apply String.eqb_eq in Hk.
      split; [exists (n', c); auto | exact Hk].
    + intros [([n' c] & <- & Hin) Hk]. exists (n', c). split; [reflexivity|].
      apply filter_In. split; [exact Hin|]. simpl in *.
      apply String.eqb_eq, Hk.
  - rewrite (lookupCache_filter (fun n => String.eqb n Neurolocal.CACHE_NAME)).
    reflexivity.
  - intros n Hn.
    rewrite (lookupCache_filter (fun n => String.eqb n Neurolocal.CACHE_NAME)).
    destruct (String.eqb_spec n Neurolocal.CACHE_NAME); [contradiction|reflexivity].
Qed.

Lemma matchOrFetch_run (net : Network) (request : Request) (w : Worker) :
  matchOrFetch net request w =
  match (if String.eqb (method request) "GET"
         then matchAny (caches w) (url request) else None) with
  | Some cached => (Resolved cached, w)
  | None =>
      match net (url request) with
      | Some r => (Resolved r, w)
      | None => (Rejected (NetworkError (url request)), w)
      end
  end.
Proof.
  unfold matchOrFetch, mbind, async_bind, cachesMatchRequest, fetch.
  destruct (if String.eqb (method request) "GET"
            then matchAny (caches w) (url request) else None); reflexivity.
Qed.



(** X12.  The fetch listener of the neurolocal worker never writes: the
    worker is left exactly as it was.  So a resource that misses the cache
    is not made available offline by being fetched online: requested again
    while the network is down, it is rejected with the network error.  And
    a request that is not a GET is never answered from the cache. *)
Theorem neurolocal_fetch_never_stores
  (net later : Network) (request : Request) (w : Worker) :
  snd (neurolocalFetch net request w) = w /\
  (Neurolocal.bypasses request = false ->
   matchAny (caches w) (url request) = None ->
   later (url request) = None ->
   fst (neurolocalFetch later request (snd (neurolocalFetch net request w)))
     = RespondWith (Rejected (NetworkError (url request)))) /\
  (Neurolocal.bypasses request = false -> method request <> "GET" ->
   fst (neurolocalFetch net request w) =
     RespondWith match net (url request) with
                 | Some r => Resolved (Some r)
                 | None => Rejected (NetworkError (url request))
                 end).
Proof.
  assert (Hsame : snd (neurolocalFetch net request w) = w).
  { unfold neurolocalFetch. destruct (Neurolocal.bypasses request); [reflexivity|].
    rewrite matchOrFetch_run.
    destruct (if String.eqb (method request) "GET"
              then matchAny (caches w) (url request) else None); [reflexivity|].
    destruct (net (url request)); reflexivity. }
  split; [exact Hsame|]. split.
  - intros Hpass Hmiss Hdown. rewrite Hsame.
    unfold neurolocalFetch. rewrite Hpass, matchOrFetch_run, Hmiss, Hdown.
    destruct (String.eqb (method request) "GET"); reflexivity.
  - intros Hpass Hmethod. unfold neurolocalFetch.
    rewrite Hpass, matchOrFetch_run.
    destruct (String.eqb_spec (method request) "GET"); [contradiction|].
    destruct (net (url request)); reflexivity.
Qed.

Lemma neurolocal_fetch_never_stores_witness :
  fst (neurolocalFetch Sample.online Sample.appScriptGet Sample.fresh)
    = RespondWith (Resolved (Some (Sample.page
        ("content of " +:+ url Sample.appScriptGet)))) /\
  fst (neurolocalFetch Sample.offline Sample.appScriptGet
         (snd (neurolocalFetch Sample.online Sample.appScriptGet Sample.fresh)))
    = RespondWith (Rejected (NetworkError (url Sample.appScriptGet))).
Proof.
  split; [reflexivity|].
  destruct (neurolocal_fetch_never_stores Sample.online Sample.offline
              Sample.appScriptGet Sample.fresh) as (_ & H & _).
  apply H; reflexivity.
Defined.

Lemma minimalFetch_found (later : Network) (request : Request) (w : Worker)
  (r : Response) :
  method request = "GET" -> matchAny (caches w) (url request) = Some r ->
  fst (minimalFetch later request w) = RespondWith (Resolved (Some r)).
Proof.
  intros Hget Hfound. unfold minimalFetch.
  rewrite matchOrFetch_run, Hget, Hfound. reflexivity.
Qed.

(** X13.  The minimal worker never deletes a generation, and
    [caches.match] answers from the oldest generation that holds the
    request.  After a resolved install and activation its own cache holds
    the ok response the network gave for every asset; a GET for an asset
    is answered with that response when no generation held the URL before
    the install, but with the old response when an older generation, at
    the head of the storage, holds one: the old copy shadows the new. *)
Theorem minimal_oldest_generation_wins
  (base : string) (net later : Network) (assets : list string) (w : Worker)
  (request : Request) (a : string) :
  fst (minimalInstallWith base assets net w) = Resolved tt ->
  In a assets -> url request = resolveRelative base a ->
  method request = "GET" ->
  exists r,
    net (url request) = Some r /\ ok r = true /\
    matchIn (caches (snd (minimalActivate
                            (snd (minimalInstallWith base assets net w)))))
            Minimal.CACHE (url request) = Some r /\
    (forall n, In n (keys (caches w)) ->
       In n (keys (caches (snd (minimalActivate
                                 (snd (minimalInstallWith base assets net w))))))) /\
    (matchAny (caches w) (url request) = None ->
     fst (minimalFetch later request
            (snd (minimalActivate (snd (minimalInstallWith base assets net w)))))
       = RespondWith (Resolved (Some r))) /\
    (forall n0 c0 rest old,
       caches w = (n0, c0) :: rest -> n0 <> Minimal.CACHE ->
       c0 !! url request = Some old ->
       fst (minimalFetch later request
              (snd (minimalActivate (snd (minimalInstallWith base assets net w)))))
         = RespondWith (Resolved (Some old))).
Proof.
  intros Hres Hin Hurl Hget. unfold minimalInstallWith in *.
  destruct (shell_installed base net Minimal.CACHE assets w a Hres Hin)
    as (r & fetched & Hr & Hok & Hcs & Hnet & Hkey & Hm).
  assert (Hact : caches (snd (minimalActivate
                   (snd ((skipWaiting;; c ← cachesOpen Minimal.CACHE;
                          addShell base net c assets) w)))) =
                 putAll (openCache (caches w) Minimal.CACHE) Minimal.CACHE fetched)
    by (rewrite <- Hcs; reflexivity).
  exists r. rewrite Hurl. split; [exact Hr|]. split; [exact Hok|].
  rewrite Hact. split; [exact Hm|]. split; [|split].
  - intros n Hn. rewrite keys_putAll. apply keys_open, Hn.
  - intros Hnone. apply minimalFetch_found; [exact Hget|].
    rewrite Hact, Hurl.
    apply (matchAny_putAll net); auto using open_has_key.
    left. split; [|exact Hkey]. rewrite matchAny_open. exact Hnone.
  - intros n0 c0 rest old Hw Hn0 Hold. apply minimalFetch_found; [exact Hget|].
    rewrite Hact, Hurl, Hw, openCache_head, putAll_head by assumption.
    simpl. rewrite Hold. reflexivity.
Qed.

Lemma minimal_oldest_generation_wins_witness :
  fst (minimalInstall "https://app.example/" Sample.online Sample.upgraded)
    = Resolved tt /\
  matchIn (caches (snd (minimalActivate
                          (snd (minimalInstall "https://app.example/"
                                               Sample.online Sample.upgraded)))))
          Minimal.CACHE (url Sample.appScriptGet)
    = Some (Sample.page ("content of " +:+ url Sample.appScriptGet)) /\
  fst (minimalFetch Sample.online Sample.appScriptGet
         (snd (minimalActivate
                 (snd (minimalInstall "https://app.example/" Sample.online
                                      Sample.upgraded)))))
    = RespondWith (Resolved (Some (Sample.page "old app.js"))).
Proof.
  split; [reflexivity|].
  assert (Hin : In "./app.js" MINIMAL_ASSETS) by (simpl; auto).
  destruct (minimal_oldest_generation_wins "https://app.example/"
              Sample.online Sample.online MINIMAL_ASSETS Sample.upgraded
              Sample.appScriptGet "./app.js" eq_refl Hin eq_refl eq_refl)
    as (r & Hr & _ & Hown & _ & _ & Hshadow).
  injection Hr as <-. split; [exact Hown|].
  eapply Hshadow; [reflexivity | discriminate | reflexivity].
Defined.

Lemma fetchShell_rejects (base : string) (net : Network)
  (assets : list string) (a : string) :
  In a assets ->
  match net (resolveRelative base a) with Some r => ok r = false | None => True end ->
  exists e, fetchShell base net assets = inl e.
Proof.
  induction assets as [|asset rest IH]; simpl; intros Hin Hbad; [contradiction|].
  destruct (net (resolveRelative base asset)) as [r|] eqn:Hnet; [|eauto].
  destruct (ok r) eqn:Hok; [|eauto].
  destruct Hin as [->|Hin].
  - rewrite Hnet in Hbad. congruence.
  - destruct (IH Hin Hbad) as [e ->]. eauto.
Qed.

(** X16.  The install listeners of the two app-shell workers call
    [skipWaiting] whether or not the install promise resolves.  When one
    asset of the list is not fetchable (its fetch rejects, or its response
    is not ok) the promise rejects and no entry of any generation has
    changed, yet the waiting phase has been skipped all the same; the full
    worker, by contrast, skips waiting only after its assets are stored. *)
Theorem shell_install_skips_waiting_even_on_failure
  (base : string) (net : Network) (assets : list string) (w : Worker) :
  skippedWaiting (snd (neurolocalInstallWith base assets net w)) = true /\
  skippedWaiting (snd (minimalInstallWith base assets net w)) = true /\
  (forall a, In a assets ->
     match net (resolveRelative base a) with
     | Some r => ok r = false
     | None => True
     end ->
     (exists e, fst (neurolocalInstallWith base assets net w) = Rejected e) /\
     (exists e, fst (minimalInstallWith base assets net w) = Rejected e) /\
     forall n key,
       matchIn (caches (snd (neurolocalInstallWith base assets net w))) n key =
         matchIn (caches w) n key /\
       matchIn (caches (snd (minimalInstallWith base assets net w))) n key =
         matchIn (caches w) n key).
Proof.
  unfold neurolocalInstallWith, minimalInstallWith.
  rewrite !shell_install_run.
  split; [destruct (fetchShell base net assets); reflexivity|].
  split; [destruct (fetchShell base net assets); reflexivity|].
  intros a Hin Hbad. destruct (fetchShell_rejects base net assets a Hin Hbad) as [e ->].
  simpl. split; [eauto|]. split; [eauto|].
  assert (Hopen : forall m n key,
             matchIn (openCache (caches w) m) n key = matchIn (caches w) n key).
  { intros m n key. destruct (String.eqb_spec m n) as [->|Hne].
    - apply matchIn_open.
    - unfold matchIn. rewrite lookupCache_open_other by assumption. reflexivity. }
  intros n key. split; apply Hopen.
Qed.

Lemma shell_install_skips_waiting_even_on_failure_witness :
  fst (neurolocalInstallWith "https://app.example/" NEUROLOCAL_ASSETS
                             Sample.offline Sample.fresh)
    = Rejected (NetworkError "https://app.example/") /\
  skippedWaiting (snd (neurolocalInstallWith "https://app.example/"
                         NEUROLOCAL_ASSETS Sample.offline Sample.fresh)) = true /\
  forall n key,
    matchIn (caches (snd (neurolocalInstallWith "https://app.example/"
                            NEUROLOCAL_ASSETS Sample.offline Sample.fresh))) n key
    = matchIn (caches Sample.fresh) n key.
Proof.
  split; [reflexivity|].
  destruct (shell_install_skips_waiting_even_on_failure "https://app.example/"
              Sample.offline NEUROLOCAL_ASSETS Sample.fresh) as (Hskip & _ & H).
  split; [exact Hskip|].
  assert (Hin : In "./" NEUROLOCAL_ASSETS) by (simpl; auto).
  destruct (H "./" Hin I) as (_ & _ & Hsame).
  intros n key. apply Hsame.
Defined.

End AppShellFacts.

(* ===================================================================== *)
(** ** The page's chat history                                            *)
(* ===================================================================== *)

Module ChatFacts.

Import Chat.

Lemma sliceLast_length {A} (n : nat) (l : list A) :
  length (sliceLast n l) = Nat.min n (length l).
Proof. unfold sliceLast. rewrite length_skipn. lia. Qed.

Lemma sliceLast_suffix {A} (n : nat) (l : list A) :
  l = firstn (length l - n) l ++ sliceLast n l.
Proof. unfold sliceLast. symmetry. apply firstn_skipn. Qed.

(** Induction on a list two elements at a time. *)
Lemma pairwise_ind {A} (P : list A -> Prop) :
  P [] -> (forall x, P [x]) -> (forall x y l, P l -> P (x :: y :: l)) ->
  forall l, P l.
Proof.
  intros Hnil Hone Hstep l.
  assert (H : P l /\ forall x, P (x :: l)); [|exact (proj1 H)].
  induction l as [|y l [IH1 IH2]]; split; auto.
Qed.

Lemma paired_app (l1 l2 : list ChatMessage) :
  paired l1 -> paired l2 -> paired (l1 ++ l2).
Proof.
  revert l1. apply (pairwise_ind (fun l1 => paired l1 -> paired l2 -> paired (l1 ++ l2))).
  - auto.
  - intros x [].
  - intros x y l IH (Hx & Hy & Hl) H2. simpl. auto.
Qed.

Lemma paired_length (l : list ChatMessage) :
  paired l -> exists m, length l = 2 * m.
Proof.
  revert l. apply (pairwise_ind (fun l => paired l -> exists m, length l = 2 * m)).
  - exists 0. reflexivity.
  - intros x [].
  - intros x y l IH (_ & _ & Hl). destruct (IH Hl) as [m Hm].
    exists (S m). simpl. lia.
Qed.

(** Dropping an even number of messages from the front of a history of
    exchanges leaves a history of exchanges. *)
Lemma paired_skipn (k : nat) (l : list ChatMessage) :
  paired l -> paired (skipn (2 * k) l).
Proof.
  revert l. induction k as [|k IH]; intros l Hl; [exact Hl|].
  replace (2 * S k) with (S (S (2 * k))) by lia.
  destruct l as [|x [|y l]]; simpl; auto.
  destruct Hl as (_ & _ & Hl). apply IH, Hl.
Qed.

Lemma paired_sliceLast (n : nat) (l : list ChatMessage) :
  paired l -> paired (sliceLast (2 * n) l).
Proof.
  intros Hl. unfold sliceLast. destruct (paired_length l Hl) as [m Hm].
  replace (length l - 2 * n) with (2 * (m - n)) by lia.
  apply paired_skipn, Hl.
Qed.

(** X14.  The history kept after an exchange never exceeds 50 messages,
    whatever its length before; it is a suffix of the old history followed
    by the new exchange, and the new exchange is always its end. *)
Theorem history_is_capped_at_fifty
  (chatHistory : list ChatMessage) (text fullResponse : string) :
  length (recordExchange chatHistory text fullResponse) <= 50 /\
  (exists dropped,
      chatHistory ++ [mkChatMessage user text;
                      mkChatMessage assistant fullResponse] =
      dropped ++ recordExchange chatHistory text fullResponse) /\
  (exists front,
      recordExchange chatHistory text fullResponse =
      front ++ [mkChatMessage user text; mkChatMessage assistant fullResponse]).
Proof.
  unfold recordExchange. cbv zeta.
  set (exchange := [mkChatMessage user text; mkChatMessage assistant fullResponse]).
  destruct (Nat.ltb_spec 50 (length (chatHistory ++ exchange))) as [Hlong|Hshort].
  - split; [rewrite sliceLast_length; lia|]. split.
    + eexists. apply sliceLast_suffix.
    + exists (skipn (length (chatHistory ++ exchange) - 50) chatHistory).
      unfold sliceLast. rewrite skipn_app.
      replace (length (chatHistory ++ exchange) - 50 - length chatHistory)
        with 0; [reflexivity|].
      rewrite length_app. simpl. lia.
  - split; [exact Hshort|]. split; [exists []; reflexivity|].
    exists chatHistory. reflexivity.
Qed.

(** X15.  A history made of exchanges stays one.  If the history is a
    sequence of user/assistant pairs, it still is after an exchange is
    recorded, cut to 50 or not; and the context handed to the engine is at
    most ten messages of whole exchanges taken from the end of the
    history, followed by the user's new message: it never starts with an
    answer whose question was cut off. *)
Theorem history_stays_paired
  (chatHistory : list ChatMessage) (text fullResponse : string) :
  paired chatHistory ->
  paired (recordExchange chatHistory text fullResponse) /\
  exists recent dropped,
    contextMessages chatHistory text = recent ++ [mkChatMessage user text] /\
    paired recent /\ length recent <= 10 /\
    chatHistory = dropped ++ recent.
Proof.
  intros Hp. split.
  - unfold recordExchange. cbv zeta.
    assert (Hpushed : paired (chatHistory ++
              [mkChatMessage user text; mkChatMessage assistant fullResponse]))
      by (apply paired_app; [exact Hp | simpl; auto]).
    destruct (Nat.ltb 50 _); [|exact Hpushed].
    apply (paired_sliceLast 25), Hpushed.
  - exists (sliceLast 10 chatHistory), (firstn (length chatHistory - 10) chatHistory).
    split; [reflexivity|]. split; [apply (paired_sliceLast 5), Hp|].
    split; [rewrite sliceLast_length; lia | apply sliceLast_suffix].
Qed.

Lemma history_stays_paired_witness :
  paired [mkChatMessage user "hi"; mkChatMessage assistant "hello"] /\
  paired (recordExchange [mkChatMessage user "hi"; mkChatMessage assistant "hello"]
                         "how are you" "fine").
Proof.
  assert (H : paired [mkChatMessage user "hi"; mkChatMessage assistant "hello"])
    by (simpl; auto).
  split; [exact H|].
  apply (history_stays_paired _ "how are you" "fine" H).
Defined.

End ChatFacts.
